(** * CubitPy: the python3 side of the cubit wrapper

    A shallow embedding of [cubitpy/cubit_wrapper_utility.py],
    [cubitpy/cubit_wrapper3.py], [cubitpy/cubitpy_types.py] and
    [cubitpy/utils.py], and the properties of the proxy layer that are
    stated about them.

    Python values are an inductive type, exceptions are values of an
    error type, and the code that talks to the python2 interpreter is
    written in a state-and-exception monad over the observable world
    (the messages sent over the channel, the state of the remote
    interpreter, the log file and the standard output). *)

From Stdlib Require Import ZArith List String Ascii Bool Lia Floats.
From Stdlib Require Import DecimalString DecimalNat Permutation.
Import ListNotations.

Local Open Scope string_scope.
Local Open Scope Z_scope.

Set Warnings "-register-all".

(** * Python values *)

(** [cubitpy_types.GeometryType], reached in the wrapper as
    [cupy.geometry]. *)
Inductive GeometryType : Type := vertex | curve | surface | volume.

(** [GeometryType.get_cubit_string].  The source ends in an [else] that
    raises [ValueError]; with four members that branch has no input. *)
Definition get_cubit_string (g : GeometryType) : string :=
  match g with
  | vertex => "vertex"
  | curve => "curve"
  | surface => "surface"
  | volume => "volume"
  end.

(** The values the wrapper handles.  Numbers carry their class as far as
    [isinstance] can tell it: [PBool] and [PIntSub] are instances of
    [int], [PFloatSub] (numpy.float64, say) is an instance of [float].
    A [CubitObject] is its [cubit_id] together with the flag that tells
    a [CubitObjectMain] from a plain [CubitObject].  [PArray] is a numpy
    array of at least one dimension, given by what the iteration over
    it yields; [POpaque] is an object of any other class, given by the
    name of the class and by what [repr] shows. *)
Inductive PyVal : Type :=
| PNone
| PBool (b : bool)
| PInt (z : Z)
| PIntSub (cls : string) (z : Z)
| PFloat (f : float)
| PFloatSub (cls : string) (f : float)
| PStr (s : string)
| PList (items : list PyVal)
| PTuple (items : list PyVal)
| PArray (items : list PyVal)
| PDict (entries : list (string * PyVal))
| PCubitObject (main : bool) (cubit_id : PyVal)
| PGeometry (g : GeometryType)
| POpaque (cls : string) (repr : string).

(** Induction that also reaches the elements of lists, tuples and
    arrays. *)
Section PyVal_induction.
Variable P : PyVal -> Prop.
Hypothesis HNone : P PNone.
Hypothesis HBool : forall b, P (PBool b).
Hypothesis HInt : forall z, P (PInt z).
Hypothesis HIntSub : forall c z, P (PIntSub c z).
Hypothesis HFloat : forall f, P (PFloat f).
Hypothesis HFloatSub : forall c f, P (PFloatSub c f).
Hypothesis HStr : forall s, P (PStr s).
Hypothesis HList : forall l, Forall P l -> P (PList l).
Hypothesis HTuple : forall l, Forall P l -> P (PTuple l).
Hypothesis HArray : forall l, Forall P l -> P (PArray l).
Hypothesis HDict : forall kv, P (PDict kv).
Hypothesis HObject : forall m c, P c -> P (PCubitObject m c).
Hypothesis HGeometry : forall g, P (PGeometry g).
Hypothesis HOpaque : forall c r, P (POpaque c r).

Fixpoint PyVal_deep_ind (v : PyVal) : P v :=
  let fix all (l : list PyVal) : Forall P l :=
    match l with
    | [] => Forall_nil P
    | x :: r => Forall_cons x (PyVal_deep_ind x) (all r)
    end in
  match v with
  | PNone => HNone
  | PBool b => HBool b
  | PInt z => HInt z
  | PIntSub c z => HIntSub c z
  | PFloat f => HFloat f
  | PFloatSub c f => HFloatSub c f
  | PStr s => HStr s
  | PList l => HList l (all l)
  | PTuple l => HTuple l (all l)
  | PArray l => HArray l (all l)
  | PDict kv => HDict kv
  | PCubitObject m c => HObject m c (PyVal_deep_ind c)
  | PGeometry g => HGeometry g
  | POpaque c r => HOpaque c r
  end.
End PyVal_induction.

(** Exceptions.  A message built with [str.format] is kept as its
    template and the values formatted into it. *)
Inductive PyExc : Type :=
| TypeError (template : string) (args : list PyVal)
| ValueError (template : string) (args : list PyVal)
| TransportError.

(** The values an exception carries in its message. *)
Definition exc_args (e : PyExc) : list PyVal :=
  match e with
  | TypeError _ a => a
  | ValueError _ a => a
  | TransportError => []
  end.

Definition is_TypeError (e : PyExc) : bool :=
  match e with TypeError _ _ => true | _ => false end.

(** The outcome of a call: a value, or a raised exception. *)
Inductive Outcome (A : Type) : Type :=
| Ok (a : A)
| Raise (e : PyExc).
Arguments Ok {A} a.
Arguments Raise {A} e.

(** * Builtins of the language *)

Module Py.

Definition is_digit (c : ascii) : bool :=
  let n := nat_of_ascii c in (48 <=? n)%nat && (n <=? 57)%nat.

Definition digit_value (c : ascii) : Z := Z.of_nat (nat_of_ascii c) - 48.

(** Whitespace that [int] strips from a str of ASCII characters: tab
    to carriage return, and the space. *)
Definition is_space (c : ascii) : bool :=
  let n := nat_of_ascii c in
  ((9 <=? n)%nat && (n <=? 13)%nat) || Nat.eqb n 32.

Fixpoint lstrip (s : string) : string :=
  match s with
  | String c r => if is_space c then lstrip r else s
  | EmptyString => EmptyString
  end.

Fixpoint rstrip (s : string) : string :=
  match s with
  | EmptyString => EmptyString
  | String c r =>
      match rstrip r with
      | EmptyString => if is_space c then EmptyString else String c EmptyString
      | r' => String c r'
      end
  end.

Definition strip (s : string) : string := rstrip (lstrip s).

(** Digits of a base-10 literal, single underscores allowed between
    digits.  [after_digit] tells whether the previous character was a
    digit. *)
Fixpoint int_digits (s : string) (acc : Z) (after_digit : bool) : option Z :=
  match s with
  | EmptyString => if after_digit then Some acc else None
  | String c r =>
      if is_digit c then int_digits r (10 * acc + digit_value c) true
      else if Ascii.eqb c "_" && after_digit then int_digits r acc false
      else None
  end.

(** The value of a string [s] of ASCII characters read as an
    optionally signed base-10 literal between optional whitespace;
    [None] when it is none. *)
Definition int_literal (s : string) : option Z :=
  match strip s with
  | String "+" r => int_digits r 0 false
  | String "-" r => option_map Z.opp (int_digits r 0 false)
  | r => int_digits r 0 false
  end.

(** The number of digits in a string. *)
Fixpoint count_digits (s : string) : nat :=
  match s with
  | EmptyString => O
  | String c r => if is_digit c then S (count_digits r) else count_digits r
  end.

(** The most digits [int] converts: the default of
    [sys.set_int_max_str_digits]. *)
Definition int_max_str_digits : Z := 4300.

Definition invalid_literal (s : string) : PyExc :=
  ValueError "invalid literal for int() with base 10: {!r}" [PStr s].

Definition exceeds_limit (digits : nat) : PyExc :=
  ValueError
    "Exceeds the limit ({} digits) for integer string conversion: value has {} digits; use sys.set_int_max_str_digits() to increase the limit"
    [PInt int_max_str_digits; PInt (Z.of_nat digits)].

(** [int(s)] for a string [s] of ASCII characters.  It raises
    [ValueError] on what is no literal, and on a literal of more digits
    than the limit, leading zeros counted; the limit is the one of
    CPython 3.11 and later, with its default.  The literal is checked
    first, as CPython 3.12 does. *)
Definition int_of_str (s : string) : Outcome Z :=
  match int_literal s with
  | None => Raise (invalid_literal s)
  | Some z =>
      if Z.of_nat (count_digits s) <=? int_max_str_digits then Ok z
      else Raise (exceeds_limit (count_digits s))
  end.

(** [str(n)] for an int [n] that is not negative. *)
Definition str_of_nat (n : nat) : string :=
  NilEmpty.string_of_uint (Nat.to_uint n).

(** [s.startswith(p)]. *)
Definition startswith (s p : string) : bool := String.prefix p s.

(** [s[n:]]. *)
Fixpoint drop (n : nat) (s : string) : string :=
  match n, s with
  | O, _ => s
  | S n', String _ r => drop n' r
  | S _, EmptyString => EmptyString
  end.

(** [isinstance(v, int)], [isinstance(v, float)], [isinstance(v, str)]. *)
Definition isinstance_int (v : PyVal) : bool :=
  match v with PBool _ | PInt _ | PIntSub _ _ => true | _ => false end.

Definition isinstance_float (v : PyVal) : bool :=
  match v with PFloat _ | PFloatSub _ _ => true | _ => false end.

Definition isinstance_str (v : PyVal) : bool :=
  match v with PStr _ => true | _ => false end.

(** The truth value of an object in an [if].  Replies of the remote
    side are builtin values; every other object counts as true, the
    default of the language. *)
Definition truthy (v : PyVal) : bool :=
  match v with
  | PNone => false
  | PBool b => b
  | PInt z | PIntSub _ z => negb (z =? 0)
  | PFloat f | PFloatSub _ f => negb (PrimFloat.eqb f 0%float)
  | PStr s => negb (String.eqb s EmptyString)
  | PList l | PTuple l | PArray l => negb (Nat.eqb (List.length l) 0)
  | PDict kv => negb (Nat.eqb (List.length kv) 0)
  | PCubitObject _ _ | PGeometry _ | POpaque _ _ => true
  end.

End Py.

(** * cubit_wrapper_utility.py *)

(** The prefix of the id token of a handle. *)
Definition id_prefix : string := "cp2t3id_".

(** [object_to_id], for an object with the python id [id] and the
    string representation [display]. *)
Definition object_to_id (id : nat) (display : string) : PyVal :=
  PList [PStr (id_prefix ++ Py.str_of_nat id); PStr display].

(** [cubit_item_to_id]: the id of a cubit data list, [None] when the
    value is not one.  [int] raises on a token whose tail is not an
    integer literal, or has too many digits. *)
Definition cubit_item_to_id (cubit_data_list : PyVal) : Outcome (option Z) :=
  match cubit_data_list with
  | PList [] => Ok None
  | PList (PStr token :: _) =>
      if Py.startswith token id_prefix then
        match Py.int_of_str (Py.drop 8 token) with
        | Ok n => Ok (Some n)
        | Raise e => Raise e
        end
      else Ok None
  | PList (_ :: _) => Ok None
  | _ => Ok None
  end.

(** [is_base_type]. *)
Definition is_base_type (obj : PyVal) : bool :=
  if Py.isinstance_str obj
     || Py.isinstance_int obj
     || Py.isinstance_float obj
     || match obj with PNone => true | _ => false end
  then true else false.

(** * The world the wrapper runs in *)

(** [Outcome] as an exception monad, for the code that touches no
    state. *)
Definition obind {A B : Type} (c : Outcome A) (k : A -> Outcome B) : Outcome B :=
  match c with
  | Ok a => k a
  | Raise e => Raise e
  end.

(** What the wrapper is run against.  [remote] is the python2
    interpreter behind the channel: its state [R], and how it answers a
    message; it sees and may rewrite the log file, and [None] is a
    channel that fails while the reply is awaited.  [temp_log] and
    [wrapper_file] are [cupy.temp_log] and [__file__], constants of
    modules outside the wrapper.  [object_attribute] tells the names
    every object of the language answers by itself ([__class__],
    [__dict__], ...). *)
Class Runtime : Type := {
  R : Type;
  remote : R -> string -> PyVal -> option (R * string * PyVal);
  temp_log : string;
  wrapper_file : string;
  object_attribute : string -> bool
}.

Section Wrapper.

Context {rt : Runtime}.

Record World : Type := mkWorld {
  channels : nat;          (* len(self.gw._channelfactory.channels()) *)
  sent : list PyVal;       (* the messages given to channel.send, oldest first *)
  remote_state : R;
  log_file : string;       (* the content of the file cupy.temp_log *)
  stdout : string          (* what has been printed *)
}.

(** Computations: a state transformer that returns or raises.  The
    world a raising computation leaves behind is kept. *)
Definition M (A : Type) : Type := World -> Outcome A * World.

Definition ret {A : Type} (a : A) : M A := fun w => (Ok a, w).

Definition raise {A : Type} (e : PyExc) : M A := fun w => (Raise e, w).

Definition bind {A B : Type} (c : M A) (k : A -> M B) : M B :=
  fun w =>
    match c w with
    | (Ok a, w') => k a w'
    | (Raise e, w') => (Raise e, w')
    end.

Definition lift {A : Type} (c : Outcome A) : M A := fun w => (c, w).

Notation "x <- c ;; k" := (bind c (fun x => k))
  (at level 61, c at next level, right associativity).
Notation "c ;;; k" := (bind c (fun _ => k))
  (at level 61, right associativity).

(** ** class CubitConnect *)

Record CubitObject : Type := mkCubitObject {
  is_main : bool;          (* a CubitObjectMain *)
  cubit_id : PyVal
}.

Definition PObj (o : CubitObject) : PyVal :=
  PCubitObject (is_main o) (cubit_id o).

Record CubitConnect : Type := mkCubitConnect {
  log_check : bool;
  cubit : CubitObject
}.

(** [channel.send(argument_list)] followed by [channel.receive()].  The
    message counts as sent also when the wait for the reply fails.
    Two things are left out.  That execnet refuses to send a value it
    cannot serialise: the values sent are taken to be ones it sends.
    And that a channel which has failed leaves the list of the gateway:
    the number of channels is given with the world, and no function
    here changes it, so that what is said of the exchanges after a
    failed one is said for the count of channels that the world
    gives. *)
Definition channel_send_receive (argument_list : PyVal) : M PyVal :=
  fun w =>
    let w1 := mkWorld (channels w) (sent w ++ [argument_list])
                (remote_state w) (log_file w) (stdout w) in
    match remote (remote_state w) (log_file w) argument_list with
    | Some (r, log, reply) =>
        (Ok reply, mkWorld (channels w) (sent w1) r log (stdout w))
    | None => (Raise TransportError, w1)
    end.

(** [CubitConnect.send_and_return]. *)
Definition send_and_return (argument_list : PyVal)
    (check_number_of_channels : bool) : M PyVal :=
  fun w =>
    if check_number_of_channels && Nat.eqb (channels w) 0 then (Ok PNone, w)
    else channel_send_receive argument_list w.

(** [serialize_item], the inner function of [get_attribute]. *)
Fixpoint serialize_item (item : PyVal) : PyVal :=
  match item with
  | PTuple l | PList l | PArray l => PList (map serialize_item l)
  | PCubitObject _ id => id
  | PFloat f | PFloatSub _ f => PFloat f
  | PBool b => PInt (if b then 1 else 0)
  | PInt z | PIntSub _ z => PInt z
  | PGeometry g => PStr (get_cubit_string g)
  | PNone | PStr _ | PDict _ | POpaque _ _ => item
  end.

(** [CubitObject.__init__]. *)
Definition CubitObject_init (cubit_data_list : PyVal) : Outcome CubitObject :=
  obind (cubit_item_to_id cubit_data_list) (fun id =>
    match id with
    | None => Raise (TypeError "Wrong type {}" [cubit_data_list])
    | Some _ => Ok (mkCubitObject false cubit_data_list)
    end).

(** [CubitObjectMain] inherits the constructor. *)
Definition CubitObjectMain_init (cubit_data_list : PyVal) : Outcome CubitObject :=
  obind (CubitObject_init cubit_data_list) (fun o =>
    Ok (mkCubitObject true (cubit_id o))).

Definition decode_error (v : PyVal) : PyExc :=
  TypeError "Expected cubit object, or base_type, got {}!" [v].

(** The loop over the entries of a returned list. *)
Fixpoint decode_items (items return_list : list PyVal) : Outcome (list PyVal) :=
  match items with
  | [] => Ok return_list
  | item :: rest =>
      obind (cubit_item_to_id item) (fun id =>
        match id with
        | Some _ =>
            obind (CubitObject_init item) (fun o =>
              decode_items rest (return_list ++ [PObj o])%list)
        | None =>
            if is_base_type item then decode_items rest (return_list ++ [item])%list
            else Raise (decode_error item)
        end)
  end.

(** The end of [function]: what becomes of the value cubit returned. *)
Definition decode (cubit_return : PyVal) : Outcome PyVal :=
  obind (cubit_item_to_id cubit_return) (fun id =>
    match id with
    | Some _ => obind (CubitObject_init cubit_return) (fun o => Ok (PObj o))
    | None =>
        match cubit_return with
        | PList items =>
            obind (decode_items items []) (fun return_list => Ok (PList return_list))
        | _ =>
            if is_base_type cubit_return then Ok cubit_return
            else Raise (decode_error cubit_return)
        end
    end).

(** Emptying the log file before a call, when it is not empty. *)
Definition empty_log : M unit :=
  fun w =>
    if negb (Nat.eqb (String.length (log_file w)) 0)
    then (Ok tt, mkWorld (channels w) (sent w) (remote_state w) EmptyString (stdout w))
    else (Ok tt, w).

(** [print] of the content of the log file, with no line end added. *)
Definition print_log : M unit :=
  fun w =>
    (Ok tt, mkWorld (channels w) (sent w) (remote_state w) (log_file w)
              (stdout w ++ log_file w)).

(** [function], called with [args]: the closure of [get_attribute] over [self],
    [cubit_object] and [name].  The log file is taken to exist and to
    be readable when [log_check] is set, as it is once cubit has
    started with the [-log] option that [__init__] added; [os.stat] and
    [open] raise otherwise.  An array among the arguments is taken to
    have at least one dimension: the iteration over an array of no
    dimension raises [TypeError]. *)
Definition function (self : CubitConnect) (cubit_object : CubitObject)
    (name : string) (args : list PyVal) : M PyVal :=
  (if log_check self then empty_log else ret tt) ;;;
  let arguments := serialize_item (PTuple args) in
  cubit_return <-
    send_and_return (PList [cubit_id cubit_object; PStr name; arguments]) false ;;
  (if log_check self then print_log else ret tt) ;;;
  lift (decode cubit_return).

(** What an attribute access gives: a value, a function that waits for
    its arguments, or an attribute of the python3 object itself. *)
Inductive Attribute : Type :=
| AttrValue (v : PyVal)
| AttrFunction (f : list PyVal -> M PyVal)
| AttrPython3 (name : string).

(** [CubitConnect.get_attribute]. *)
Definition get_attribute (self : CubitConnect) (cubit_object : CubitObject)
    (name : string) : M Attribute :=
  callable <-
    send_and_return (PList [PStr "iscallable"; cubit_id cubit_object; PStr name])
      false ;;
  if Py.truthy callable then ret (AttrFunction (function self cubit_object name))
  else v <- function self cubit_object name [] ;; ret (AttrValue v).

(** ** class CubitObject *)

(** The connection a proxy holds in [cubit_connect] is given to the
    functions below next to the proxy, as [self]. *)

(** The names [object.__getattribute__] finds in the instance and in
    the class. *)
Definition instance_attributes : list string := ["cubit_connect"; "cubit_id"].

Definition class_attributes : list string :=
  ["__init__"; "__getattribute__"; "__del__"; "__str__"; "isinstance";
   "get_self_dir"; "get_methods"; "get_attributes"; "get_geometry_type";
   "get_node_ids"].

Definition mem (name : string) (names : list string) : bool :=
  existsb (String.eqb name) names.

(** [object.__getattribute__(self, name)]; [None] is [AttributeError]. *)
Definition object_getattribute (o : CubitObject) (name : string)
    : option Attribute :=
  if String.eqb name "cubit_id" then Some (AttrValue (cubit_id o))
  else if mem name instance_attributes || mem name class_attributes
          || object_attribute name
  then Some (AttrPython3 name)
  else None.

(** [CubitObject.__getattribute__]. *)
Definition CubitObject_getattribute (self : CubitConnect) (o : CubitObject)
    (name : string) : M Attribute :=
  match object_getattribute o name with
  | Some a => ret a
  | None => get_attribute self o name
  end.

(** [CubitObject.__del__]. *)
Definition CubitObject_del (o : CubitObject) : M unit :=
  send_and_return (PList [PStr "delete"; cubit_id o]) true ;;; ret tt.

(** [CubitObjectMain.__del__]. *)
Definition CubitObjectMain_del (o : CubitObject) : M unit := ret tt.

(** The [__del__] of the class of [o]. *)
Definition del (o : CubitObject) : M unit :=
  if is_main o then CubitObjectMain_del o else CubitObject_del o.

(** [CubitObject.isinstance]. *)
Definition CubitObject_isinstance (o : CubitObject) (geom_type : string)
    : M PyVal :=
  send_and_return (PList [PStr "isinstance"; cubit_id o; PStr geom_type]) false.

Definition not_a_geometry : PyExc :=
  TypeError "The item is not a valid geometry!" [].

(** [CubitObject.get_geometry_type]. *)
Definition get_geometry_type (o : CubitObject) : M GeometryType :=
  b <- CubitObject_isinstance o "cubitpy_vertex" ;;
  if Py.truthy b then ret vertex else
  b <- CubitObject_isinstance o "cubitpy_curve" ;;
  if Py.truthy b then ret curve else
  b <- CubitObject_isinstance o "cubitpy_surface" ;;
  if Py.truthy b then ret surface else
  b <- CubitObject_isinstance o "cubitpy_volume" ;;
  if Py.truthy b then ret volume else
  raise not_a_geometry.

(** ** CubitConnect.__init__ *)

(** The [for ... break ... else] over the arguments: was a log file
    given? *)
Fixpoint log_given (cubit_arguments : list string) : bool :=
  match cubit_arguments with
  | [] => false
  | arg :: rest =>
      if Py.startswith arg "-log=" then true else log_given rest
  end.

(** [CubitConnect.__init__].  The world it starts in holds the gateway
    that [execnet.makegateway] made and the channel on which the
    python2 code was started.  [cubit_arguments.extend] changes the
    list of the caller; here the extended list is the one that is
    sent. *)
Definition CubitConnect_init (cubit_arguments : list string)
    (cubit_bin_path : option string) : M CubitConnect :=
  match cubit_bin_path with
  | None => raise (ValueError "Path to cubit was not given!" [])
  | Some path =>
      let parameters :=
        [("__file__", PStr wrapper_file); ("cubit_bin_path", PStr path)] in
      let given := log_given cubit_arguments in
      let cubit_arguments :=
        if negb given then (cubit_arguments ++ ["-log"; temp_log])%list
        else cubit_arguments in
      let parameters :=
        if negb given then (parameters ++ [("tty", PStr temp_log)])%list
        else parameters in
      let log_check := if negb given then true else false in
      send_and_return (PDict parameters) false ;;;
      cubit_id <-
        send_and_return (PList [PStr "init"; PList (map PStr cubit_arguments)])
          false ;;
      cubit <- lift (CubitObjectMain_init cubit_id) ;;
      ret (mkCubitConnect log_check cubit)
  end.

(** ** The life of a proxy *)

(** The interpreter finalizes an object once: it runs the [__del__] of
    its class, and drops whatever that raises. *)
Inductive Lifecycle : Type := Live | Released.

Record Proxy : Type := mkProxy {
  proxy_object : CubitObject;
  proxy_state : Lifecycle
}.

Definition release (p : Proxy) : M Proxy :=
  fun w =>
    match proxy_state p with
    | Live => (Ok (mkProxy (proxy_object p) Released), snd (del (proxy_object p) w))
    | Released => (Ok p, w)
    end.

(** The finalizers of several objects, one after the other; an
    exception of one of them is not dropped here. *)
Fixpoint del_all (os : list CubitObject) : M unit :=
  match os with
  | [] => ret tt
  | o :: rest => del o ;;; del_all rest
  end.

(** ** utils.py *)

(** [cubitpy.cubit_group.CubitGroup] is not part of the wrapper: a
    group is known here by its own [get_geometry_type]. *)
Inductive Item : Type :=
| ItemGroup (CubitGroup_get_geometry_type : M GeometryType)
| ItemObject (o : CubitObject).

(** [utils.get_geometry_type]. *)
Definition utils_get_geometry_type (item : Item) : M GeometryType :=
  match item with
  | ItemGroup CubitGroup_get_geometry_type => CubitGroup_get_geometry_type
  | ItemObject o =>
      b <- CubitObject_isinstance o "cubitpy_vertex" ;;
      if Py.truthy b then ret vertex else
      b <- CubitObject_isinstance o "cubitpy_curve" ;;
      if Py.truthy b then ret curve else
      b <- CubitObject_isinstance o "cubitpy_surface" ;;
      if Py.truthy b then ret surface else
      b <- CubitObject_isinstance o "cubitpy_volume" ;;
      if Py.truthy b then ret volume else
      raise not_a_geometry
  end.

(** ** The same, in the words of the description *)

(** The ordered list of categories and the kind each stands for. *)
Definition categories : list (string * GeometryType) :=
  [("cubitpy_vertex", vertex); ("cubitpy_curve", curve);
   ("cubitpy_surface", surface); ("cubitpy_volume", volume)].

(** Ask [isinstance] for each category in turn and stop at the first
    that matches. *)
Fixpoint first_match (o : CubitObject) (cs : list (string * GeometryType))
    : M GeometryType :=
  match cs with
  | [] => raise not_a_geometry
  | (category, kind) :: rest =>
      b <- CubitObject_isinstance o category ;;
      if Py.truthy b then ret kind else first_match o rest
  end.

End Wrapper.

(** * A small remote side to run the wrapper against *)

Module Demo.

(** A handle as [object_to_id] of the python2 side builds it. *)
Definition handle (digits display : string) : PyVal :=
  PList [PStr (id_prefix ++ digits); PStr display].

(** A python2 side that knows one callable, [mesh], tells vertices and
    curves by the display string of a handle, and writes one line to
    the log per method call. *)
Definition answer (r : nat) (log : string) (message : PyVal)
    : option (nat * string * PyVal) :=
  match message with
  | PDict _ => Some (S r, log, PNone)
  | PList [PStr action; PList _] =>
      if String.eqb action "init"
      then Some (S r, log ++ "cubit started;", handle "1" "<cubit>")
      else if String.eqb action "delete" then Some (S r, log, PNone)
      else None
  | PList [PStr action; PList [_; PStr display]; PStr name] =>
      if String.eqb action "iscallable"
      then Some (S r, log, PBool (String.eqb name "mesh"))
      else if String.eqb action "isinstance"
      then Some (S r, log,
                 PBool ((String.eqb display "<Vertex>"
                         && String.eqb name "cubitpy_vertex")
                        || (String.eqb display "<Curve>"
                            && String.eqb name "cubitpy_curve")))
      else None
  | PList [PList _; PStr name; PList _] =>
      if String.eqb name "id" then Some (S r, log ++ "id;", PInt 5)
      else Some (S r, log ++ "call;", handle "7" "<Body>")
  | _ => None
  end.

#[export] Instance runtime : Runtime := {|
  R := nat;
  remote := answer;
  temp_log := "/tmp/cubitpy.log";
  wrapper_file := "cubitpy/cubit_wrapper3.py";
  object_attribute := fun name => mem name ["__class__"; "__dict__"; "__doc__"]
|}.

(** A world: the number of channels, the messages sent, the state of
    the remote side, the log file and the output. *)
Definition state (n : nat) (messages : list PyVal) (r : nat)
    (log out : string) : World :=
  mkWorld n messages r log out.

(** The world before anything has been sent. *)
Definition world (n : nat) : World := state n [] O EmptyString EmptyString.

Definition vertex_42 : CubitObject :=
  mkCubitObject false (handle "42" "<Vertex>").

Definition curve_9 : CubitObject :=
  mkCubitObject false (handle "9" "<Curve>").

Definition body_7 : CubitObject :=
  mkCubitObject false (handle "7" "<Body>").

Definition connection : CubitConnect :=
  mkCubitConnect true (mkCubitObject true (handle "1" "<cubit>")).

End Demo.

(** * The notions the statements are written in *)

(** The value of a string of decimal digits, most significant first. *)
Fixpoint decimal_value (s : string) (acc : Z) : Z :=
  match s with
  | EmptyString => acc
  | String c r => decimal_value r (10 * acc + Py.digit_value c)
  end.

Fixpoint all_digits (s : string) : bool :=
  match s with
  | EmptyString => true
  | String c r => Py.is_digit c && all_digits r
  end.

(** A value the classification takes for a handle. *)
Definition recognized (v : PyVal) : bool :=
  match cubit_item_to_id v with
  | Ok (Some _) => true
  | _ => false
  end.

(** A value on which the classification raises: a list that begins
    with a str carrying the prefix and a tail that [int] does not
    convert. *)
Definition bad_token (v : PyVal) : bool :=
  match cubit_item_to_id v with
  | Raise _ => true
  | Ok _ => false
  end.

(** An entry of a list that can be decoded: a handle or a primitive. *)
Definition entry_ok (x : PyVal) : bool := recognized x || is_base_type x.

(** A reply that can be decoded: a handle, a list of handles and
    primitives, or a primitive. *)
Definition decodable (reply : PyVal) : bool :=
  recognized reply
  || match reply with
     | PList items => forallb entry_ok items
     | _ => is_base_type reply
     end.

(** No token with the prefix and a tail that [int] does not convert,
    in the reply or in its entries. *)
Definition tokens_well_formed (reply : PyVal) : bool :=
  negb (bad_token reply)
  && match reply with
     | PList items => forallb (fun x => negb (bad_token x)) items
     | _ => true
     end.

(** What an entry of a decoded list is: a new proxy for a handle, the
    entry itself otherwise. *)
Definition decoded_entry (x : PyVal) : PyVal :=
  if recognized x then PCubitObject false x else x.

(** An int, a float or a str, of exactly that class. *)
Definition plain_scalar (v : PyVal) : bool :=
  match v with
  | PInt _ | PFloat _ | PStr _ => true
  | _ => false
  end.

(** The encoding in the words of its description: sequences are mapped
    element by element to lists, and [leaf] is applied to everything
    else. *)
Fixpoint map_leaves (leaf : PyVal -> PyVal) (v : PyVal) : PyVal :=
  match v with
  | PList l | PTuple l | PArray l => PList (map (map_leaves leaf) l)
  | _ => leaf v
  end.

Definition encode_leaf (v : PyVal) : PyVal :=
  match v with
  | PCubitObject _ handle => handle
  | PFloat f | PFloatSub _ f => PFloat f
  | PInt z | PIntSub _ z => PInt z
  | PBool b => PInt (Z.b2z b)
  | PGeometry vertex => PStr "vertex"
  | PGeometry curve => PStr "curve"
  | PGeometry surface => PStr "surface"
  | PGeometry volume => PStr "volume"
  | _ => v
  end.

(** A numpy scalar of a class that derives neither from [int] nor from
    [float], numpy.int64 or numpy.float32 say, as the iteration over an
    array of integers or of single-precision floats yields it.  For
    [isinstance] it is neither an int nor a float; it is known by its
    class and by what [repr] shows of it. *)
Definition numpy_scalar (cls value : string) : PyVal := POpaque cls value.

(** A number as the description wants it on the wire: a plain int or a
    plain float. *)
Definition wire_number (v : PyVal) : bool :=
  match v with
  | PInt _ | PFloat _ => true
  | _ => false
  end.

(** How deep sequences are nested in a value. *)
Fixpoint depth (v : PyVal) : nat :=
  match v with
  | PList l | PTuple l | PArray l => S (fold_right Nat.max O (map depth l))
  | _ => O
  end.

(** The same, a proxy counting for the handle that is sent in its
    place. *)
Fixpoint depth_as_sent (v : PyVal) : nat :=
  match v with
  | PList l | PTuple l | PArray l => S (fold_right Nat.max O (map depth_as_sent l))
  | PCubitObject _ handle => depth handle
  | _ => O
  end.

Fixpoint proxy_free (v : PyVal) : bool :=
  match v with
  | PList l | PTuple l | PArray l => forallb proxy_free l
  | PCubitObject _ _ => false
  | _ => true
  end.

(** The proxies a decoded value hands to the caller. *)
Definition proxies_of (v : PyVal) : list CubitObject :=
  let proxy x :=
    match x with
    | PCubitObject m id => [mkCubitObject m id]
    | _ => []
    end in
  match v with
  | PList l => flat_map proxy l
  | _ => proxy v
  end.

(** The messages of the protocol. *)
Definition iscallable_message (o : CubitObject) (name : string) : PyVal :=
  PList [PStr "iscallable"; cubit_id o; PStr name].

Definition call_message (o : CubitObject) (name : string) (arguments : PyVal)
    : PyVal :=
  PList [cubit_id o; PStr name; arguments].

Definition delete_message (o : CubitObject) : PyVal :=
  PList [PStr "delete"; cubit_id o].

Definition isinstance_message (o : CubitObject) (category : string) : PyVal :=
  PList [PStr "isinstance"; cubit_id o; PStr category].

Definition init_message (cubit_arguments : list string) : PyVal :=
  PList [PStr "init"; PList (map PStr cubit_arguments)].

(** A proxy once it has been released. *)
Definition released (p : Proxy) : Proxy := mkProxy (proxy_object p) Released.

Section Reachability.

Context {rt : Runtime}.

(** The proxies a program can come to hold: the ones it constructs, the
    root proxy of a connection, and the ones returned by a call on a
    proxy it holds. *)
Inductive Reachable : CubitObject -> Prop :=
| reach_new : forall data o,
    CubitObject_init data = Ok o -> Reachable o
| reach_root : forall cubit_arguments cubit_bin_path w self w',
    CubitConnect_init cubit_arguments cubit_bin_path w = (Ok self, w') ->
    Reachable (cubit self)
| reach_call : forall self o name args w v w' p,
    Reachable o ->
    function self o name args w = (Ok v, w') ->
    In p (proxies_of v) ->
    Reachable p.

(** The queries for the categories [cs] are all answered, and none of
    the answers is true: the world they leave, if so. *)
Fixpoint misses (o : CubitObject) (cs : list (string * GeometryType))
    (w : World) : option World :=
  match cs with
  | [] => Some w
  | (category, _) :: rest =>
      match CubitObject_isinstance o category w with
      | (Ok b, w') => if Py.truthy b then None else misses o rest w'
      | (Raise _, _) => None
      end
  end.

(** The world after a message has been sent and answered. *)
Definition answered (w : World) (messages : list PyVal) (r : R) (log : string)
    : World :=
  mkWorld (channels w) (sent w ++ messages) r log (stdout w).

(** The parameters handed to the python2 side first. *)
Definition parameters_message (path : string) (capture : bool) : PyVal :=
  PDict ([("__file__", PStr wrapper_file); ("cubit_bin_path", PStr path)]
         ++ (if capture then [("tty", PStr temp_log)] else []))%list.

(** The arguments cubit is started with. *)
Definition launch_arguments (cubit_arguments : list string) (capture : bool)
    : list string :=
  (cubit_arguments ++ (if capture then ["-log"; temp_log] else []))%list.

End Reachability.

(** * cubitpy_types.py *)

(** The members of an enumeration are numbered by [auto()] in the order
    they are written, from 1 on; two members are equal when their
    numbers are.  A member in an error message is the opaque value of
    its class with the name it prints as. *)

(** [GeometryType]: numbers, and the second table of strings. *)
Definition GeometryType_value (g : GeometryType) : nat :=
  match g with
  | vertex => 1
  | curve => 2
  | surface => 3
  | volume => 4
  end.

Definition GeometryType_eqb (a b : GeometryType) : bool :=
  Nat.eqb (GeometryType_value a) (GeometryType_value b).

(** [GeometryType.get_dat_bc_section_string]. *)
Definition GeometryType_get_dat_bc_section_string (self : GeometryType)
    : Outcome string :=
  if GeometryType_eqb self vertex then Ok "POINT"
  else if GeometryType_eqb self curve then Ok "LINE"
  else if GeometryType_eqb self surface then Ok "SURF"
  else if GeometryType_eqb self volume then Ok "VOL"
  else Raise (ValueError "Got unexpected type {}!" [PGeometry self]).

Module FiniteElementObject.

Inductive t : Type := hex | tet | face | triangle | edge | node.

Definition value (f : t) : nat :=
  match f with
  | hex => 1
  | tet => 2
  | face => 3
  | triangle => 4
  | edge => 5
  | node => 6
  end.

Definition eqb (a b : t) : bool := Nat.eqb (value a) (value b).

Definition name (f : t) : string :=
  match f with
  | hex => "hex"
  | tet => "tet"
  | face => "face"
  | triangle => "triangle"
  | edge => "edge"
  | node => "node"
  end.

Definition as_value (f : t) : PyVal :=
  POpaque "FiniteElementObject" ("FiniteElementObject." ++ name f).

(** [FiniteElementObject.get_cubit_string].  The chain has no [else]:
    a member it does not name would give [None]. *)
Definition get_cubit_string (self : t) : option string :=
  if eqb self hex then Some "hex"
  else if eqb self tet then Some "tet"
  else if eqb self face then Some "face"
  else if eqb self triangle then Some "tri"
  else if eqb self edge then Some "edge"
  else if eqb self node then Some "node"
  else None.

(** [FiniteElementObject.get_dat_bc_section_string]. *)
Definition get_dat_bc_section_string (self : t) : Outcome string :=
  if eqb self node then Ok "POINT"
  else Raise (ValueError "Got unexpected type {}!" [as_value self]).

End FiniteElementObject.

Module ElementType.

Inductive t : Type := hex8 | hex20 | hex27 | tet4 | tet10 | hex8sh | hex8_fluid.

Definition value (e : t) : nat :=
  match e with
  | hex8 => 1
  | hex20 => 2
  | hex27 => 3
  | tet4 => 4
  | tet10 => 5
  | hex8sh => 6
  | hex8_fluid => 7
  end.

Definition eqb (a b : t) : bool := Nat.eqb (value a) (value b).

Definition name (e : t) : string :=
  match e with
  | hex8 => "hex8"
  | hex20 => "hex20"
  | hex27 => "hex27"
  | tet4 => "tet4"
  | tet10 => "tet10"
  | hex8sh => "hex8sh"
  | hex8_fluid => "hex8_fluid"
  end.

Definition as_value (e : t) : PyVal :=
  POpaque "ElementType" ("ElementType." ++ name e).

Definition wrong_element_type (e : t) : PyExc :=
  ValueError "Got wrong element type {}!" [as_value e].

(** [ElementType.get_cubit_names]: the scheme and the element type. *)
Definition get_cubit_names (self : t) : Outcome (string * string) :=
  if eqb self hex8 || eqb self hex8sh || eqb self hex8_fluid
  then Ok ("Auto", "HEX8")
  else if eqb self hex20 then Ok ("Auto", "HEX20")
  else if eqb self hex27 then Ok ("Auto", "HEX27")
  else if eqb self tet4 then Ok ("Tetmesh", "TETRA4")
  else if eqb self tet10 then Ok ("Tetmesh", "TETRA10")
  else Raise (wrong_element_type self).

(** [ElementType.get_baci_name]. *)
Definition get_baci_name (self : t) : Outcome string :=
  if eqb self hex8 then Ok "SOLIDH8"
  else if eqb self hex20 then Ok "SOLIDH20"
  else if eqb self hex27 then Ok "SOLIDH27"
  else if eqb self tet4 then Ok "SOLIDT4"
  else if eqb self tet10 then Ok "SOLIDT10"
  else if eqb self hex8sh then Ok "SOLIDSH8"
  else if eqb self hex8_fluid then Ok "FLUID"
  else Raise (wrong_element_type self).

(** [ElementType.get_baci_section]. *)
Definition get_baci_section (self : t) : Outcome string :=
  if eqb self hex8_fluid then Ok "FLUID"
  else if eqb self hex20 || eqb self hex8 || eqb self hex20 || eqb self hex27
          || eqb self tet4 || eqb self hex8sh || eqb self tet10
  then Ok "STRUCTURE"
  else Raise (wrong_element_type self).

(** [ElementType.get_default_baci_description]. *)
Definition get_default_baci_description (self : t) : Outcome string :=
  if eqb self hex8 then Ok "KINEM nonlinear EAS none"
  else if eqb self hex20 || eqb self hex27 || eqb self tet4 || eqb self tet10
  then Ok "KINEM nonlinear"
  else if eqb self hex8sh
  then Ok "KINEM nonlinear EAS none ANS none THICKDIR auto"
  else if eqb self hex8_fluid then Ok "NA ALE"
  else Raise (wrong_element_type self).

End ElementType.

Module BoundaryConditionType.

Inductive t : Type :=
| dirichlet
| neumann
| point_coupling
| beam_to_solid_volume_meshtying
| beam_to_solid_surface_meshtying
| beam_to_solid_surface_contact
| solid_to_solid_surface_contact
| fsi_coupling
| ale_dirichlet.

Definition value (b : t) : nat :=
  match b with
  | dirichlet => 1
  | neumann => 2
  | point_coupling => 3
  | beam_to_solid_volume_meshtying => 4
  | beam_to_solid_surface_meshtying => 5
  | beam_to_solid_surface_contact => 6
  | solid_to_solid_surface_contact => 7
  | fsi_coupling => 8
  | ale_dirichlet => 9
  end.

Definition eqb (a b : t) : bool := Nat.eqb (value a) (value b).

Definition name (b : t) : string :=
  match b with
  | dirichlet => "dirichlet"
  | neumann => "neumann"
  | point_coupling => "point_coupling"
  | beam_to_solid_volume_meshtying => "beam_to_solid_volume_meshtying"
  | beam_to_solid_surface_meshtying => "beam_to_solid_surface_meshtying"
  | beam_to_solid_surface_contact => "beam_to_solid_surface_contact"
  | solid_to_solid_surface_contact => "solid_to_solid_surface_contact"
  | fsi_coupling => "fsi_coupling"
  | ale_dirichlet => "ale_dirichlet"
  end.

Definition as_value (b : t) : PyVal :=
  POpaque "BoundaryConditionType" ("BoundaryConditionType." ++ name b).

(** What is given for [geometry_type]: a geometry type or a finite
    element object, the two the method compares it with. *)
Inductive Geometry : Type :=
| OfGeometryType (g : GeometryType)
| OfFiniteElementObject (f : FiniteElementObject.t).

Definition geometry_value (geometry_type : Geometry) : PyVal :=
  match geometry_type with
  | OfGeometryType g => PGeometry g
  | OfFiniteElementObject f => FiniteElementObject.as_value f
  end.

(** [geometry_type == GeometryType.g] and
    [geometry_type == FiniteElementObject.f]: members of different
    enumerations are never equal. *)
Definition is_geometry (geometry_type : Geometry) (g : GeometryType) : bool :=
  match geometry_type with
  | OfGeometryType g' => GeometryType_eqb g' g
  | OfFiniteElementObject _ => false
  end.

Definition is_element (geometry_type : Geometry) (f : FiniteElementObject.t)
    : bool :=
  match geometry_type with
  | OfGeometryType _ => false
  | OfFiniteElementObject f' => FiniteElementObject.eqb f' f
  end.

(** [geometry_type.get_dat_bc_section_string()], of the class of the
    object. *)
Definition section_string (geometry_type : Geometry) : Outcome string :=
  match geometry_type with
  | OfGeometryType g => GeometryType_get_dat_bc_section_string g
  | OfFiniteElementObject f => FiniteElementObject.get_dat_bc_section_string f
  end.

(** [BoundaryConditionType.get_dat_bc_section_header]. *)
Definition get_dat_bc_section_header (self : t) (geometry_type : Geometry)
    : Outcome string :=
  if eqb self dirichlet || eqb self neumann then
    let self_string := if eqb self dirichlet then "DIRICH" else "NEUMANN" in
    obind (section_string geometry_type) (fun section =>
      Ok ("DESIGN " ++ section ++ " " ++ self_string ++ " CONDITIONS"))
  else if eqb self beam_to_solid_volume_meshtying
          && is_geometry geometry_type volume
  then Ok "BEAM INTERACTION/BEAM TO SOLID VOLUME MESHTYING VOLUME"
  else if eqb self beam_to_solid_surface_meshtying
          && is_geometry geometry_type surface
  then Ok "BEAM INTERACTION/BEAM TO SOLID SURFACE MESHTYING SURFACE"
  else if eqb self beam_to_solid_surface_contact
          && is_geometry geometry_type surface
  then Ok "BEAM INTERACTION/BEAM TO SOLID SURFACE CONTACT SURFACE"
  else if eqb self point_coupling
          && (is_geometry geometry_type vertex
              || is_element geometry_type FiniteElementObject.node)
  then Ok "DESIGN POINT COUPLING CONDITIONS"
  else if eqb self solid_to_solid_surface_contact
          && (is_geometry geometry_type surface
              || is_element geometry_type FiniteElementObject.node)
  then Ok "DESIGN SURF MORTAR CONTACT CONDITIONS 3D"
  else if eqb self fsi_coupling
          && (is_geometry geometry_type surface
              || is_element geometry_type FiniteElementObject.node)
  then Ok "DESIGN FSI COUPLING SURF CONDITIONS"
  else if eqb self ale_dirichlet
          && (is_geometry geometry_type surface
              || is_element geometry_type FiniteElementObject.node)
  then Ok "DESIGN SURF ALE DIRICH CONDITIONS"
  else Raise (ValueError "No implemented case for {} and {}!"
                [as_value self; geometry_value geometry_type]).

End BoundaryConditionType.

(** * More of cubit_wrapper3.py *)

(** What a [for] gets out of a value: the entries of a list, a tuple or
    an array, the characters of a str, the keys of a dict; [None] for a
    value that cannot be iterated.  The values met here are replies of
    the remote side, which are builtin values; a proxy and a member of
    an enumeration have no [__iter__], and an object of a class not
    known here is taken to have none. *)
Definition py_iterate (v : PyVal) : option (list PyVal) :=
  match v with
  | PList l | PTuple l | PArray l => Some l
  | PStr s => Some (map (fun c => PStr (String c EmptyString)) (list_ascii_of_string s))
  | PDict kv => Some (map (fun entry => PStr (fst entry)) kv)
  | _ => None
  end.

(** The name of the class of a value, as the interpreter writes it in
    the message of a [TypeError]. *)
Definition py_type_name (v : PyVal) : string :=
  match v with
  | PNone => "NoneType"
  | PBool _ => "bool"
  | PInt _ => "int"
  | PFloat _ => "float"
  | PIntSub cls _ | PFloatSub cls _ | POpaque cls _ => cls
  | PStr _ => "str"
  | PList _ => "list"
  | PTuple _ => "tuple"
  | PArray _ => "numpy.ndarray"
  | PDict _ => "dict"
  | PCubitObject main _ => if main then "CubitObjectMain" else "CubitObject"
  | PGeometry _ => "GeometryType"
  end.

(** [method, callable = entry], the target of the [for] in
    [get_methods] and [get_attributes].  The [TypeError] for an entry
    that cannot be iterated names the class of the entry. *)
Definition unpack_member (entry : PyVal) : Outcome (PyVal * PyVal) :=
  match py_iterate entry with
  | None =>
      Raise (TypeError "cannot unpack non-iterable {} object"
               [PStr (py_type_name entry)])
  | Some [method; callable] => Ok (method, callable)
  | Some [] =>
      Raise (ValueError "not enough values to unpack (expected 2, got {})" [PInt 0])
  | Some [_] =>
      Raise (ValueError "not enough values to unpack (expected 2, got {})" [PInt 1])
  | Some _ => Raise (ValueError "too many values to unpack (expected 2)" [])
  end.

(** [[method for method, callable in entries if keep(callable)]]. *)
Fixpoint comprehension (keep : PyVal -> bool) (entries : list PyVal)
    : Outcome (list PyVal) :=
  match entries with
  | [] => Ok []
  | entry :: rest =>
      obind (unpack_member entry) (fun member =>
        obind (comprehension keep rest) (fun tail =>
          Ok (if keep (snd member) then fst member :: tail else tail)))
  end.

(** The comprehension over what [get_self_dir] returned. *)
Definition members (keep : PyVal -> bool) (self_dir : PyVal)
    : Outcome (list PyVal) :=
  match py_iterate self_dir with
  | None =>
      Raise (TypeError "'{}' object is not iterable" [PStr (py_type_name self_dir)])
  | Some entries => comprehension keep entries
  end.

Section MoreWrapper.

Context {rt : Runtime}.

(** [CubitObject.get_self_dir]. *)
Definition CubitObject_get_self_dir (o : CubitObject) : M PyVal :=
  send_and_return (PList [PStr "get_self_dir"; cubit_id o]) false.

(** [CubitObject.get_methods]. *)
Definition CubitObject_get_methods (o : CubitObject) : M (list PyVal) :=
  bind (CubitObject_get_self_dir o) (fun self_dir =>
    lift (members Py.truthy self_dir)).

(** [CubitObject.get_attributes]. *)
Definition CubitObject_get_attributes (o : CubitObject) : M (list PyVal) :=
  bind (CubitObject_get_self_dir o) (fun self_dir =>
    lift (members (fun callable => negb (Py.truthy callable)) self_dir)).

End MoreWrapper.

(** The objects among [os] whose finalizer is the [__del__] of
    [CubitObject]: those that are not the root proxy. *)
Definition deleting (os : list CubitObject) : list CubitObject :=
  filter (fun o => negb (is_main o)) os.




(** The message of the member enumeration. *)
Definition get_self_dir_message (o : CubitObject) : PyVal :=
  PList [PStr "get_self_dir"; cubit_id o].

(** * A second remote side, with members and a failing channel *)

Module Bench.

(** What this remote side answers to the member enumeration. *)
Definition self_dir : PyVal :=
  PList [PTuple [PStr "mesh"; PBool true];
         PTuple [PStr "id"; PBool false];
         PList [PStr "volumes"; PBool true]].

(** A python2 side that enumerates three members, answers the init
    call with a str instead of a handle, and lets the channel fail on
    every other message. *)
Definition answer (r : nat) (log : string) (message : PyVal)
    : option (nat * string * PyVal) :=
  match message with
  | PDict _ => Some (S r, log, PNone)
  | PList [PStr action; PList _] =>
      if String.eqb action "get_self_dir" then Some (S r, log, self_dir)
      else if String.eqb action "init" then Some (S r, log, PStr "no cubit")
      else None
  | _ => None
  end.

#[export] Instance runtime : Runtime := {|
  R := nat;
  remote := answer;
  temp_log := "/tmp/cubitpy.log";
  wrapper_file := "cubitpy/cubit_wrapper3.py";
  object_attribute := fun name => mem name ["__class__"; "__dict__"; "__doc__"]
|}.

Definition state (n : nat) (messages : list PyVal) (r : nat)
    (log out : string) : World :=
  mkWorld n messages r log out.

Definition world (n : nat) : World := state n [] O "old;" EmptyString.

End Bench.

(** * Handle classification *)

Section Classification.

Lemma digit_not_space c : Py.is_digit c = true -> Py.is_space c = false.
Proof.
  unfold Py.is_digit, Py.is_space. intros H.
  apply andb_true_iff in H. destruct H as [H1 H2].
  apply Nat.leb_le in H1. apply Nat.leb_le in H2.
  apply orb_false_iff. split.
  - apply andb_false_iff. right. apply Nat.leb_gt. lia.
  - apply Nat.eqb_neq. lia.
Qed.

Lemma lstrip_digits s : all_digits s = true -> Py.lstrip s = s.
Proof.
  destruct s as [|c r]; simpl; [reflexivity|].
  intros H. apply andb_true_iff in H. destruct H as [Hc _].
  now rewrite (digit_not_space c Hc).
Qed.

Lemma rstrip_digits s : all_digits s = true -> Py.rstrip s = s.
Proof.
  induction s as [|c r IH]; simpl; [reflexivity|].
  intros H. apply andb_true_iff in H. destruct H as [Hc Hr].
  rewrite (IH Hr). destruct r; [|reflexivity].
  now rewrite (digit_not_space c Hc).
Qed.

Lemma int_digits_all_digits s : forall acc b,
  all_digits s = true -> (s <> EmptyString \/ b = true) ->
  Py.int_digits s acc b = Some (decimal_value s acc).
Proof.
  induction s as [|c r IH]; simpl; intros acc b H Hne.
  - destruct Hne as [Hne | ->]; [congruence | reflexivity].
  - apply andb_true_iff in H. destruct H as [Hc Hr].
    rewrite Hc. apply IH; auto.
Qed.

Lemma digit_not_sign c r :
  Py.is_digit c = true ->
  match String c r with
  | String "+" r' => Py.int_digits r' 0 false
  | String "-" r' => option_map Z.opp (Py.int_digits r' 0 false)
  | s => Py.int_digits s 0 false
  end = Py.int_digits (String c r) 0 false.
Proof.
  intros H.
  destruct c as [[] [] [] [] [] [] [] []]; try reflexivity; discriminate H.
Qed.

(** A nonempty string of digits is a literal, of its decimal value. *)
Lemma int_literal_digits s :
  all_digits s = true -> s <> EmptyString ->
  Py.int_literal s = Some (decimal_value s 0).
Proof.
  intros H Hne. unfold Py.int_literal, Py.strip.
  rewrite (lstrip_digits s H), (rstrip_digits s H).
  destruct s as [|c r]; [congruence|].
  assert (Hc : Py.is_digit c = true)
    by (simpl in H; apply andb_true_iff in H; tauto).
  rewrite (digit_not_sign c r Hc).
  apply int_digits_all_digits; auto.
Qed.

Lemma count_digits_all_digits s :
  all_digits s = true -> Py.count_digits s = String.length s.
Proof.
  induction s as [|c r IH]; [reflexivity|].
  cbn [all_digits Py.count_digits String.length]. intros H.
  apply andb_true_iff in H. destruct H as [Hc Hr]. now rewrite Hc, (IH Hr).
Qed.

(** [int] reads a nonempty string of at most 4300 digits as its
    decimal value. *)
Lemma int_of_str_digits s :
  all_digits s = true -> s <> EmptyString -> (String.length s <= 4300)%nat ->
  Py.int_of_str s = Ok (decimal_value s 0).
Proof.
  intros H Hne Hl. unfold Py.int_of_str.
  rewrite (int_literal_digits s H Hne), (count_digits_all_digits s H).
  unfold Py.int_max_str_digits.
  destruct (Z.leb_spec (Z.of_nat (String.length s)) 4300) as [_|Hgt];
    [reflexivity | lia].
Qed.

(** [int] refuses a string of more than 4300 digits. *)
Lemma int_of_str_too_long s :
  all_digits s = true -> (4300 < String.length s)%nat ->
  Py.int_of_str s = Raise (Py.exceeds_limit (String.length s)).
Proof.
  intros H Hl. unfold Py.int_of_str.
  assert (Hne : s <> EmptyString) by (intros ->; cbn in Hl; lia).
  rewrite (int_literal_digits s H Hne), (count_digits_all_digits s H).
  unfold Py.int_max_str_digits.
  destruct (Z.leb_spec (Z.of_nat (String.length s)) 4300) as [Hle|_];
    [lia | reflexivity].
Qed.

Lemma decimal_value_nonneg s : forall acc,
  all_digits s = true -> 0 <= acc -> 0 <= decimal_value s acc.
Proof.
  induction s as [|c r IH]; cbn [decimal_value all_digits];
    intros acc H Hacc; [assumption|].
  apply andb_true_iff in H. destruct H as [Hc Hr].
  apply IH; [assumption|].
  unfold Py.is_digit in Hc. apply andb_true_iff in Hc. destruct Hc as [H1 _].
  apply Nat.leb_le in H1. unfold Py.digit_value.
  assert (48 <= Z.of_nat (nat_of_ascii c)) by (apply (Nat2Z.inj_le 48); exact H1).
  lia.
Qed.

End Classification.

(** * Facts about the classification *)

Lemma cubit_item_to_id_not_list v :
  (forall l, v <> PList l) -> cubit_item_to_id v = Ok None.
Proof.
  intros H. destruct v; try reflexivity. now elim (H items).
Qed.

Lemma cubit_item_to_id_empty : cubit_item_to_id (PList []) = Ok None.
Proof. reflexivity. Qed.

Lemma cubit_item_to_id_first_not_str x l :
  Py.isinstance_str x = false -> cubit_item_to_id (PList (x :: l)) = Ok None.
Proof. intros H. destruct x; try reflexivity. discriminate H. Qed.


Lemma id_prefix_starts digits : Py.startswith (id_prefix ++ digits) id_prefix = true.
Proof.
  unfold Py.startswith. cbn. destruct digits; reflexivity.
Qed.

Lemma id_prefix_drop digits : Py.drop 8 (id_prefix ++ digits) = digits.
Proof. reflexivity. Qed.

(** A list that begins with the prefix followed by at most 4300
    decimal digits is classified as the integer the digits spell. *)
Lemma cubit_item_to_id_handle digits l :
  all_digits digits = true -> digits <> EmptyString ->
  (String.length digits <= 4300)%nat ->
  cubit_item_to_id (PList (PStr (id_prefix ++ digits) :: l))
  = Ok (Some (decimal_value digits 0)).
Proof.
  intros H Hne Hl. cbn [cubit_item_to_id].
  rewrite id_prefix_starts, id_prefix_drop, (int_of_str_digits digits H Hne Hl).
  reflexivity.
Qed.

Lemma cubit_item_to_id_too_long digits l :
  all_digits digits = true -> (4300 < String.length digits)%nat ->
  cubit_item_to_id (PList (PStr (id_prefix ++ digits) :: l))
  = Raise (Py.exceeds_limit (String.length digits)).
Proof.
  intros H Hl. cbn [cubit_item_to_id].
  rewrite id_prefix_starts, id_prefix_drop, (int_of_str_too_long digits H Hl).
  reflexivity.
Qed.

Lemma string_of_uint_all_digits d :
  all_digits (NilEmpty.string_of_uint d) = true.
Proof. induction d; cbn; auto. Qed.

Lemma decimal_value_string_of_uint d : forall acc,
  decimal_value (NilEmpty.string_of_uint d) (Z.of_nat acc)
  = Z.of_nat (Nat.of_uint_acc d acc).
Proof.
  induction d; intros acc; cbn [NilEmpty.string_of_uint decimal_value Nat.of_uint_acc];
    try reflexivity;
    rewrite <- IHd; f_equal; rewrite Nat.tail_mul_spec;
    unfold Py.digit_value;
    match goal with
    | |- context [Z.of_nat (nat_of_ascii ?c)] =>
        let v := eval compute in (Z.of_nat (nat_of_ascii c)) in
        change (Z.of_nat (nat_of_ascii c)) with v
    end; lia.
Qed.

Lemma str_of_nat_value n : decimal_value (Py.str_of_nat n) 0 = Z.of_nat n.
Proof.
  unfold Py.str_of_nat. change 0 with (Z.of_nat O).
  rewrite (decimal_value_string_of_uint (Nat.to_uint n) O).
  f_equal. apply DecimalNat.Unsigned.of_to.
Qed.

Lemma str_of_nat_not_empty n : Py.str_of_nat n <> EmptyString.
Proof.
  unfold Py.str_of_nat. intros H.
  assert (Hd : Nat.to_uint n = Decimal.Nil)
    by (destruct (Nat.to_uint n); [reflexivity | discriminate H ..]).
  pose proof (DecimalNat.Unsigned.of_to n) as E. rewrite Hd in E. cbn in E.
  subst n. discriminate Hd.
Qed.

Lemma string_of_uint_length d :
  String.length (NilEmpty.string_of_uint d) = Decimal.nb_digits d.
Proof. induction d; cbn; auto. Qed.

Lemma to_lu_small n :
  (n < 10)%nat -> Decimal.nb_digits (DecimalNat.Unsigned.to_lu n) = 1%nat.
Proof.
  intros H. do 10 (destruct n as [|n]; [reflexivity|]). lia.
Qed.

Lemma to_lu_next_digit q r :
  q <> O -> (r < 10)%nat ->
  Decimal.nb_digits (DecimalNat.Unsigned.to_lu (r + 10 * q))
  = S (Decimal.nb_digits (DecimalNat.Unsigned.to_lu q)).
Proof.
  intros Hq Hr.
  do 10 (destruct r as [|r];
         [cbn [Nat.add];
          rewrite ?DecimalNat.Unsigned.to_lu_succ,
                  (DecimalNat.Unsigned.to_lu_tenfold q Hq);
          reflexivity|]).
  lia.
Qed.

(** A number below the [k+1]-th power of ten has at most [k+1]
    digits. *)
Lemma to_lu_digits k : forall n,
  Z.of_nat n < 10 ^ Z.of_nat (S k) ->
  (Decimal.nb_digits (DecimalNat.Unsigned.to_lu n) <= S k)%nat.
Proof.
  induction k as [|k IH]; intros n Hn.
  - change (10 ^ Z.of_nat 1) with 10 in Hn.
    rewrite to_lu_small; [lia | lia].
  - destruct (Nat.lt_ge_cases n 10) as [Hs | Hb].
    + rewrite (to_lu_small n Hs). lia.
    + pose proof (Nat.div_mod_eq n 10) as E.
      pose proof (Nat.mod_upper_bound n 10 ltac:(discriminate)) as Hr.
      remember (n / 10)%nat as q eqn:Eq. remember (n mod 10)%nat as r eqn:Er.
      clear Eq Er.
      assert (Hq : q <> O) by (intros ->; lia).
      subst n. rewrite Nat.add_comm, (to_lu_next_digit q r Hq Hr).
      apply le_n_S, IH.
      rewrite (Nat2Z.inj_succ (S k)), Z.pow_succ_r in Hn by lia.
      lia.
Qed.

(** The decimal form of a number below 2^64 has at most 20 digits. *)
Lemma str_of_nat_length id :
  Z.of_nat id < 2 ^ 64 -> (String.length (Py.str_of_nat id) <= 20)%nat.
Proof.
  intros H. unfold Py.str_of_nat.
  rewrite string_of_uint_length, DecimalNat.Unsigned.to_uint_alt,
    DecimalFacts.nb_digits_rev.
  apply (to_lu_digits 19).
  assert (B : 2 ^ 64 < 10 ^ Z.of_nat 20) by reflexivity.
  lia.
Qed.

(** What [object_to_id] builds is classified as the id it was built
    from, as long as [int] converts the digits of the id. *)
Lemma cubit_item_to_id_object_to_id id display :
  (String.length (Py.str_of_nat id) <= 4300)%nat ->
  cubit_item_to_id (object_to_id id display) = Ok (Some (Z.of_nat id)).
Proof.
  intros Hl. unfold object_to_id.
  rewrite (cubit_item_to_id_handle (Py.str_of_nat id) [PStr display]
             (string_of_uint_all_digits _) (str_of_nat_not_empty id) Hl).
  now rewrite str_of_nat_value.
Qed.

(** [int] raises one of two errors. *)
Lemma int_of_str_raises s e :
  Py.int_of_str s = Raise e ->
  e = Py.invalid_literal s \/ exists digits, e = Py.exceeds_limit digits.
Proof.
  unfold Py.int_of_str. destruct (Py.int_literal s) as [z|].
  - destruct (Z.of_nat (Py.count_digits s) <=? Py.int_max_str_digits);
      intros H; inversion H. right. eauto.
  - intros H. inversion H. now left.
Qed.

(** The three ways the classification can end, and when. *)
Lemma cubit_item_to_id_cases v :
  cubit_item_to_id v = Ok None
  \/ (exists token l n,
        v = PList (PStr token :: l) /\ Py.startswith token id_prefix = true
        /\ Py.int_of_str (Py.drop 8 token) = Ok n
        /\ cubit_item_to_id v = Ok (Some n))
  \/ (exists token l e,
        v = PList (PStr token :: l) /\ Py.startswith token id_prefix = true
        /\ Py.int_of_str (Py.drop 8 token) = Raise e
        /\ (e = Py.invalid_literal (Py.drop 8 token)
            \/ exists digits, e = Py.exceeds_limit digits)
        /\ cubit_item_to_id v = Raise e).
Proof.
  destruct v as [| | | | | | |l| | | | | |]; try (left; reflexivity).
  destruct l as [|x l]; [left; reflexivity|].
  destruct x; try (left; reflexivity).
  cbn [cubit_item_to_id].
  destruct (Py.startswith s id_prefix) eqn:Hp; [|left; reflexivity].
  destruct (Py.int_of_str (Py.drop 8 s)) as [n|e] eqn:Hn.
  - right; left. exists s, l, n. auto.
  - right; right. exists s, l, e.
    pose proof (int_of_str_raises _ _ Hn). auto.
Qed.

Lemma recognized_is_list v :
  recognized v = true -> exists token l, v = PList (PStr token :: l).
Proof.
  unfold recognized. intros H.
  destruct (cubit_item_to_id_cases v)
    as [E | [(t & l & n & -> & _) | (t & l & e & -> & _)]].
  - rewrite E in H. discriminate.
  - eauto.
  - eauto.
Qed.

Lemma recognized_not_base v : recognized v = true -> is_base_type v = false.
Proof.
  intros H. destruct (recognized_is_list v H) as (t & l & ->). reflexivity.
Qed.

(** C2, at the input where the code leaves the description: a list whose
    first entry carries the prefix but no integer after it makes the
    classification raise [ValueError] instead of answering that the
    value is not a handle. *)
Theorem cubit_item_to_id_raises_on_bad_token :
  cubit_item_to_id (PList [PStr "cp2t3id_abc"; PStr "<Vertex>"])
  = Raise (ValueError "invalid literal for int() with base 10: {!r}" [PStr "abc"])
  /\ cubit_item_to_id (PList [PStr "cp2t3id_"; PStr "<Vertex>"])
     = Raise (ValueError "invalid literal for int() with base 10: {!r}" [PStr EmptyString])
  /\ cubit_item_to_id (PList [PStr "cp2t3id_42"; PStr "<Vertex>"]) = Ok (Some 42).
Proof. repeat split; reflexivity. Qed.

Lemma recognized_some v :
  recognized v = true -> exists n, cubit_item_to_id v = Ok (Some n).
Proof.
  unfold recognized. destruct (cubit_item_to_id v) as [[n|]|e]; try discriminate.
  eauto.
Qed.

Lemma not_recognized_none v :
  recognized v = false -> bad_token v = false -> cubit_item_to_id v = Ok None.
Proof.
  unfold recognized, bad_token.
  destruct (cubit_item_to_id v) as [[n|]|e]; try discriminate; reflexivity.
Qed.

Lemma bad_token_not_recognized v : bad_token v = true -> recognized v = false.
Proof.
  unfold recognized, bad_token.
  destruct (cubit_item_to_id v) as [[n|]|e]; try discriminate; reflexivity.
Qed.

Lemma bad_token_raises v :
  bad_token v = true ->
  exists e,
    cubit_item_to_id v = Raise e
    /\ ((exists tail, e = Py.invalid_literal tail)
        \/ exists digits, e = Py.exceeds_limit digits).
Proof.
  unfold bad_token. intros H.
  destruct (cubit_item_to_id_cases v)
    as [E | [(t & l & n & _ & _ & _ & E) | (t & l & e & _ & _ & _ & He & E)]];
    rewrite E in H; try discriminate.
  exists e. split; [exact E|]. destruct He as [-> | He]; eauto.
Qed.

(** * Facts about the constructor of a proxy *)

Lemma CubitObject_init_recognized data :
  recognized data = true -> CubitObject_init data = Ok (mkCubitObject false data).
Proof.
  intros H. destruct (recognized_some data H) as [n E].
  unfold CubitObject_init. now rewrite E.
Qed.

Lemma CubitObject_init_not_handle data :
  cubit_item_to_id data = Ok None ->
  CubitObject_init data = Raise (TypeError "Wrong type {}" [data]).
Proof. intros E. unfold CubitObject_init. now rewrite E. Qed.

Lemma CubitObject_init_ok data o :
  CubitObject_init data = Ok o ->
  o = mkCubitObject false data /\ recognized data = true.
Proof.
  unfold CubitObject_init, recognized.
  destruct (cubit_item_to_id data) as [[n|]|e]; cbn; intros H;
    inversion H; auto.
Qed.

Lemma CubitObjectMain_init_ok data o :
  CubitObjectMain_init data = Ok o ->
  o = mkCubitObject true data /\ recognized data = true.
Proof.
  unfold CubitObjectMain_init.
  destruct (CubitObject_init data) as [o'|e] eqn:E; cbn; intros H; inversion H.
  destruct (CubitObject_init_ok data o' E) as [-> Hr]. auto.
Qed.

(** * Facts about decoding *)

Lemma decode_items_ok items : forall return_list,
  forallb entry_ok items = true ->
  decode_items items return_list
  = Ok (return_list ++ map decoded_entry items)%list.
Proof.
  induction items as [|x rest IH]; intros acc H.
  - cbn. now rewrite app_nil_r.
  - cbn [forallb] in H. apply andb_true_iff in H. destruct H as [Hx Hrest].
    cbn [decode_items map]. unfold decoded_entry at 1.
    destruct (recognized x) eqn:Hr.
    + destruct (recognized_some x Hr) as [n E]. rewrite E. cbn [obind].
      rewrite (CubitObject_init_recognized x Hr). cbn [obind].
      rewrite (IH _ Hrest). now rewrite <- app_assoc.
    + unfold entry_ok in Hx. rewrite Hr in Hx. cbn in Hx.
      assert (Hb : bad_token x = false).
      { unfold bad_token. destruct x; try reflexivity; discriminate Hx. }
      rewrite (not_recognized_none x Hr Hb). cbn [obind]. rewrite Hx.
      rewrite (IH _ Hrest). now rewrite <- app_assoc.
Qed.

(** The loop stops at the first entry that is neither a handle nor a
    primitive, with the error of that entry. *)
Lemma decode_items_stops before x after : forall return_list,
  forallb entry_ok before = true -> entry_ok x = false ->
  decode_items (before ++ x :: after) return_list
  = match cubit_item_to_id x with
    | Raise e => Raise e
    | Ok _ => Raise (decode_error x)
    end.
Proof.
  induction before as [|y rest IH]; intros acc H Hx.
  - cbn [app decode_items]. unfold entry_ok in Hx.
    apply orb_false_iff in Hx. destruct Hx as [Hr Hb].
    destruct (cubit_item_to_id x) as [[n|]|e] eqn:E; cbn [obind].
    + unfold recognized in Hr. rewrite E in Hr. discriminate.
    + now rewrite Hb.
    + reflexivity.
  - cbn [forallb] in H. apply andb_true_iff in H. destruct H as [Hy Hrest].
    cbn [app decode_items].
    destruct (recognized y) eqn:Hr.
    + destruct (recognized_some y Hr) as [n E]. rewrite E. cbn [obind].
      rewrite (CubitObject_init_recognized y Hr). cbn [obind].
      now apply IH.
    + unfold entry_ok in Hy. rewrite Hr in Hy. cbn in Hy.
      assert (Hb : bad_token y = false).
      { unfold bad_token. destruct y; try reflexivity; discriminate Hy. }
      rewrite (not_recognized_none y Hr Hb). cbn [obind]. rewrite Hy.
      now apply IH.
Qed.

(** A list either has only entries that decode, or a first one that
    does not. *)
Lemma first_bad_entry items :
  forallb entry_ok items = true
  \/ exists before x after,
       items = (before ++ x :: after)%list
       /\ forallb entry_ok before = true /\ entry_ok x = false.
Proof.
  induction items as [|y rest IH].
  - now left.
  - destruct (entry_ok y) eqn:Hy.
    + destruct IH as [IH | (b & x & a & -> & Hb & Hx)].
      * left. cbn. now rewrite Hy.
      * right. exists (y :: b), x, a. cbn. rewrite Hy. auto.
    + right. exists [], y, rest. auto.
Qed.

Lemma decode_handle reply :
  recognized reply = true -> decode reply = Ok (PCubitObject false reply).
Proof.
  intros H. unfold decode. destruct (recognized_some reply H) as [n E].
  rewrite E. cbn [obind]. now rewrite (CubitObject_init_recognized reply H).
Qed.

Lemma decode_primitive v : is_base_type v = true -> decode v = Ok v.
Proof. intros H. destruct v; try discriminate H; reflexivity. Qed.

(** Every way [decode] can end. *)
Lemma decode_cases reply :
  (recognized reply = true /\ decode reply = Ok (PCubitObject false reply))
  \/ (bad_token reply = true /\ decode reply = obind (cubit_item_to_id reply)
                                              (fun _ => Ok PNone))
  \/ (recognized reply = false /\ bad_token reply = false
      /\ ((exists items, reply = PList items /\ forallb entry_ok items = true
             /\ decode reply = Ok (PList (map decoded_entry items)))
          \/ (exists before x after,
                reply = PList (before ++ x :: after)
                /\ forallb entry_ok before = true /\ entry_ok x = false
                /\ decode reply = match cubit_item_to_id x with
                                  | Raise e => Raise e
                                  | Ok _ => Raise (decode_error x)
                                  end)
          \/ ((forall l, reply <> PList l)
              /\ decode reply = if is_base_type reply then Ok reply
                                else Raise (decode_error reply)))).
Proof.
  destruct (recognized reply) eqn:Hr.
  { left. split; [reflexivity | now apply decode_handle]. }
  destruct (bad_token reply) eqn:Hb.
  { right; left. split; [reflexivity|]. unfold decode.
    destruct (bad_token_raises reply Hb) as (e & E & _). now rewrite E. }
  right; right. split; [reflexivity|]. split; [reflexivity|].
  pose proof (not_recognized_none reply Hr Hb) as E.
  unfold decode. rewrite E. cbn [obind].
  destruct reply as [| | | | | | |items| | | | | |];
    try (right; right; split; [intros l; discriminate | reflexivity]).
  destruct (first_bad_entry items) as [Hall | (b & x & a & -> & Hbf & Hx)].
  - left. exists items. split; [reflexivity|]. split; [assumption|].
    now rewrite (decode_items_ok items [] Hall).
  - right; left. exists b, x, a. split; [reflexivity|].
    split; [assumption|]. split; [assumption|].
    rewrite (decode_items_stops b x a [] Hbf Hx).
    destruct (cubit_item_to_id x) as [o|e]; reflexivity.
Qed.

Lemma cubit_item_to_id_never_TypeError v e :
  cubit_item_to_id v = Raise e -> is_TypeError e = false.
Proof.
  intros H.
  destruct (cubit_item_to_id_cases v)
    as [E | [(t & l & n & _ & _ & _ & E) | (t & l & e' & _ & _ & _ & He & E)]];
    rewrite E in H; inversion H; subst.
  destruct He as [-> | [digits ->]]; reflexivity.
Qed.

Lemma decodable_not_list v :
  (forall l, v <> PList l) -> decodable v = recognized v || is_base_type v.
Proof.
  intros H. unfold decodable. destruct v; try reflexivity. now elim (H items).
Qed.

Lemma forallb_stops {A} (f : A -> bool) before x after :
  f x = false -> forallb f (before ++ x :: after) = false.
Proof.
  intros H. rewrite forallb_app. cbn. rewrite H. now rewrite andb_false_r.
Qed.

(** When decoding raises a type error, the reply could not be decoded,
    and the error carries the value that could not: the reply itself, or
    the first entry of the list that is neither handle nor primitive. *)
Lemma decode_TypeError_sound reply template args :
  decode reply = Raise (TypeError template args) ->
  decodable reply = false
  /\ exists x, TypeError template args = decode_error x
       /\ entry_ok x = false
       /\ (x = reply \/ exists items, reply = PList items /\ In x items).
Proof.
  intros H.
  destruct (decode_cases reply)
    as [[_ E] | [[Hb E] | (Hr & Hb & [(l & -> & _ & E)
                                     | [(b & x & a & -> & Hbf & Hx & E)
                                       | [Hnl E]]])]];
    rewrite E in H; try discriminate H.
  - destruct (cubit_item_to_id reply) as [o|e] eqn:Ec; cbn in H; try discriminate H.
    apply cubit_item_to_id_never_TypeError in Ec. inversion H; subst e. discriminate Ec.
  - destruct (cubit_item_to_id x) as [o|e] eqn:Ec.
    + split.
      * unfold decodable. rewrite Hr. cbn. now apply forallb_stops.
      * exists x. split; [now inversion H|]. split; [assumption|].
        right. eexists. split; [reflexivity|]. apply in_or_app. right. now left.
    + apply cubit_item_to_id_never_TypeError in Ec. inversion H; subst e. discriminate Ec.
  - destruct (is_base_type reply) eqn:Hbase; try discriminate H.
    split.
    + rewrite (decodable_not_list reply Hnl), Hr, Hbase. reflexivity.
    + exists reply. split; [now inversion H|]. split; [|now left].
      unfold entry_ok. now rewrite Hr, Hbase.
Qed.

(** Without a token that makes the classification raise, a reply that
    cannot be decoded raises the type error, and a reply that can be
    decoded gives the proxy, the list or the primitive. *)
Lemma decode_well_formed reply :
  tokens_well_formed reply = true ->
  (decodable reply = false -> exists x, decode reply = Raise (decode_error x))
  /\ (decodable reply = true ->
      decode reply
      = Ok (if recognized reply then PCubitObject false reply
            else match reply with
                 | PList items => PList (map decoded_entry items)
                 | _ => reply
                 end)).
Proof.
  intros Hw. unfold tokens_well_formed in Hw.
  apply andb_true_iff in Hw. destruct Hw as [Hw1 Hw2].
  apply negb_true_iff in Hw1.
  destruct (decode_cases reply)
    as [[Hr E] | [[Hb E] | (Hr & Hb & [(l & -> & Hall & E)
                                      | [(b & x & a & -> & Hbf & Hx & E)
                                        | [Hnl E]]])]].
  - split; intros Hd.
    + unfold decodable in Hd. rewrite Hr in Hd. discriminate.
    + now rewrite Hr.
  - congruence.
  - split; intros Hd.
    + unfold decodable in Hd. rewrite Hr, Hall in Hd. discriminate.
    + now rewrite Hr.
  - assert (Hxb : bad_token x = false).
    { rewrite forallb_app in Hw2. cbn in Hw2.
      apply andb_true_iff in Hw2. destruct Hw2 as [_ Hw2].
      apply andb_true_iff in Hw2. destruct Hw2 as [Hw2 _].
      now apply negb_true_iff in Hw2. }
    split; intros Hd.
    + exists x. rewrite E. unfold bad_token in Hxb.
      destruct (cubit_item_to_id x); [reflexivity | discriminate].
    + unfold decodable in Hd. rewrite Hr in Hd. cbn in Hd.
      rewrite (forallb_stops entry_ok b x a Hx) in Hd. discriminate.
  - rewrite (decodable_not_list reply Hnl), Hr. cbn [orb].
    split; intros Hd; rewrite E, Hd.
    + now exists reply.
    + destruct reply; try reflexivity. now elim (Hnl items).
Qed.

(** Without such a token, the type error is raised exactly for the
    replies that cannot be decoded. *)
Lemma decode_TypeError_iff reply :
  tokens_well_formed reply = true ->
  (exists template args, decode reply = Raise (TypeError template args))
  <-> decodable reply = false.
Proof.
  intros Hw. split.
  - intros (t & a & H). now destruct (decode_TypeError_sound reply t a H).
  - intros Hd. destruct (proj1 (decode_well_formed reply Hw) Hd) as [x E].
    rewrite E. unfold decode_error. eauto.
Qed.

(** C7, at the input where the code leaves the description: the first
    entry of the reply carries the prefix but no integer, the second is
    a tuple.  The reply cannot be decoded, and what is raised is the
    [ValueError] of the classification of the first entry, not the type
    error with the tuple. *)
Theorem decode_raises_ValueError_on_bad_token :
  decodable (PList [PList [PStr "cp2t3id_x"]; PTuple []]) = false
  /\ decode (PList [PList [PStr "cp2t3id_x"]; PTuple []])
     = Raise (ValueError "invalid literal for int() with base 10: {!r}" [PStr "x"])
  /\ decode (PList [PInt 1; PTuple []]) = Raise (decode_error (PTuple [])).
Proof. repeat split; reflexivity. Qed.

(** * Facts about the encoding *)

Lemma map_Forall_eq {A B} (f g : A -> B) l :
  Forall (fun x => f x = g x) l -> map f l = map g l.
Proof.
  induction 1 as [|x r Hx _ IH]; cbn; [reflexivity|]. now rewrite Hx, IH.
Qed.

Lemma serialize_item_map_leaves v : serialize_item v = map_leaves encode_leaf v.
Proof.
  induction v using PyVal_deep_ind;
    try reflexivity;
    try (cbn [serialize_item map_leaves]; f_equal; now apply map_Forall_eq).
  all: match goal with
       | |- serialize_item (_ ?x) = _ => destruct x; reflexivity
       end.
Qed.

Lemma depth_serialize_item v : depth (serialize_item v) = depth_as_sent v.
Proof.
  induction v using PyVal_deep_ind; try reflexivity;
    cbn [serialize_item depth depth_as_sent]; rewrite map_map;
    do 2 f_equal; now apply map_Forall_eq.
Qed.

Lemma depth_as_sent_proxy_free v : proxy_free v = true -> depth_as_sent v = depth v.
Proof.
  induction v using PyVal_deep_ind; try reflexivity; try discriminate;
    cbn [proxy_free depth depth_as_sent]; intros Hf;
    do 2 f_equal; apply map_Forall_eq;
    rewrite forallb_forall in Hf; rewrite Forall_forall in *; auto.
Qed.

(** What the encoding does with each kind of value.  It maps a list, a
    tuple and an array to the list of the encoded elements: same
    length, each element encoded at its own position, and the nesting
    as deep as it was, where a proxy counts for the handle that takes
    its place.  A proxy becomes its handle; a value that [isinstance]
    takes for a float becomes the float of the same value and one that
    it takes for an int the int of the same value, whatever its class;
    a geometry type becomes its cubit string; every other value, a
    number of a class that derives from neither included, is sent as it
    is. *)
Theorem serialize_item_encodes :
  (forall l,
      serialize_item (PList l) = PList (map serialize_item l)
      /\ serialize_item (PTuple l) = PList (map serialize_item l)
      /\ serialize_item (PArray l) = PList (map serialize_item l)
      /\ List.length (map serialize_item l) = List.length l
      /\ forall i, nth_error (map serialize_item l) i
                   = option_map serialize_item (nth_error l i))
  /\ (forall v, depth (serialize_item v) = depth_as_sent v)
  /\ (forall v, proxy_free v = true -> depth (serialize_item v) = depth v)
  /\ (forall main handle, serialize_item (PCubitObject main handle) = handle)
  /\ (forall f cls,
        serialize_item (PFloat f) = PFloat f
        /\ serialize_item (PFloatSub cls f) = PFloat f)
  /\ (forall z cls b,
        serialize_item (PInt z) = PInt z
        /\ serialize_item (PIntSub cls z) = PInt z
        /\ serialize_item (PBool b) = PInt (Z.b2z b))
  /\ (serialize_item (PGeometry vertex) = PStr "vertex"
      /\ serialize_item (PGeometry curve) = PStr "curve"
      /\ serialize_item (PGeometry surface) = PStr "surface"
      /\ serialize_item (PGeometry volume) = PStr "volume")
  /\ (forall s kv cls repr,
        serialize_item PNone = PNone
        /\ serialize_item (PStr s) = PStr s
        /\ serialize_item (PDict kv) = PDict kv
        /\ serialize_item (POpaque cls repr) = POpaque cls repr)
  /\ (forall v, serialize_item v = map_leaves encode_leaf v).
Proof.
  split; [|split; [|split; [|split; [|split; [|split; [|split; [|split]]]]]]].
  - intros l. repeat split; try reflexivity.
    + apply length_map.
    + intros i. apply nth_error_map.
  - exact depth_serialize_item.
  - intros v H. now rewrite depth_serialize_item, depth_as_sent_proxy_free.
  - reflexivity.
  - intros; split; reflexivity.
  - intros z cls b; repeat split; destruct b; reflexivity.
  - repeat split; reflexivity.
  - intros; repeat split; reflexivity.
  - exact serialize_item_map_leaves.
Qed.

(** C6, at the input where the code leaves the description: an array
    of integers among the arguments, whose elements are numpy.int64.
    Such an element is an instance neither of int nor of float, so the
    encoding takes its last branch and sends it as it is: what goes on
    the wire is no plain int, the numeric class is passed through.  The
    same holds for every numpy scalar of such a class, numpy.float32
    included, at any depth.  The elements of an array of
    double-precision floats, numpy.float64, which derives from float,
    are made plain floats, and an instance of a subclass of int a plain
    int. *)
Theorem serialize_item_keeps_numpy_scalar :
  let one := numpy_scalar "numpy.int64" "1" in
  let two := numpy_scalar "numpy.int64" "2" in
  (Py.isinstance_int one = false /\ Py.isinstance_float one = false)
  /\ serialize_item (PArray [one; two]) = PList [one; two]
  /\ forallb wire_number [one; two] = false
  /\ serialize_item (PTuple [PInt 3; PArray [one; two]])
     = PList [PInt 3; PList [one; two]]
  /\ (forall cls value,
        serialize_item (numpy_scalar cls value) = numpy_scalar cls value
        /\ wire_number (serialize_item (numpy_scalar cls value)) = false
        /\ serialize_item (PArray [numpy_scalar cls value])
           = PList [numpy_scalar cls value])
  /\ (forall f z,
        serialize_item (PArray [PFloatSub "numpy.float64" f]) = PList [PFloat f]
        /\ wire_number (serialize_item (PFloatSub "numpy.float64" f)) = true
        /\ wire_number (serialize_item (PIntSub "IntEnum" z)) = true).
Proof.
  cbv zeta. repeat split; reflexivity.
Qed.

Example serialize_nested :
  serialize_item
    (PTuple [PList [PCubitObject false (Demo.handle "7" "<Body>")];
             PArray [PFloatSub "numpy.float64" 1.5%float; PInt 2];
             PGeometry vertex])
  = PList [PList [Demo.handle "7" "<Body>"];
           PList [PFloat 1.5%float; PInt 2];
           PStr "vertex"].
Proof. reflexivity. Qed.


(** An instance of a subclass comes back as the plain number of the
    same value. *)
Lemma decode_serialize_item_subclass :
  (forall cls z, decode (serialize_item (PIntSub cls z)) = Ok (PInt z))
  /\ (forall b, decode (serialize_item (PBool b)) = Ok (PInt (Z.b2z b)))
  /\ (forall cls f, decode (serialize_item (PFloatSub cls f)) = Ok (PFloat f)).
Proof.
  split; [reflexivity|]. split; [|reflexivity]. intros b. destruct b; reflexivity.
Qed.

(** * Facts about the connection *)

Section Connection.

Context {rt : Runtime}.

Lemma send_and_return_answered message check w r log reply :
  (check = false \/ channels w <> O) ->
  remote (remote_state w) (log_file w) message = Some (r, log, reply) ->
  send_and_return message check w = (Ok reply, answered w [message] r log).
Proof.
  intros Hc Hr. unfold send_and_return, channel_send_receive.
  assert (E : check && Nat.eqb (channels w) 0 = false).
  { destruct Hc as [-> | Hn]; [reflexivity|].
    apply andb_false_iff. right. now apply Nat.eqb_neq. }
  rewrite E, Hr. reflexivity.
Qed.

Lemma send_and_return_fails message check w :
  (check = false \/ channels w <> O) ->
  remote (remote_state w) (log_file w) message = None ->
  send_and_return message check w
  = (Raise TransportError,
     mkWorld (channels w) (sent w ++ [message]) (remote_state w) (log_file w)
       (stdout w)).
Proof.
  intros Hc Hr. unfold send_and_return, channel_send_receive.
  assert (E : check && Nat.eqb (channels w) 0 = false).
  { destruct Hc as [-> | Hn]; [reflexivity|].
    apply andb_false_iff. right. now apply Nat.eqb_neq. }
  rewrite E, Hr. reflexivity.
Qed.

Lemma send_and_return_closed message w :
  channels w = O -> send_and_return message true w = (Ok PNone, w).
Proof. intros H. unfold send_and_return. now rewrite H. Qed.

(** Whatever the remote side does, a message that is sent is sent
    once, and the number of channels is what it was. *)
Lemma send_and_return_sent message check w :
  let w' := snd (send_and_return message check w) in
  channels w' = channels w
  /\ sent w' = if check && Nat.eqb (channels w) 0 then sent w
               else (sent w ++ [message])%list.
Proof.
  unfold send_and_return, channel_send_receive.
  destruct (check && Nat.eqb (channels w) 0); [split; reflexivity|].
  destruct (remote (remote_state w) (log_file w) message) as [[[r l] v]|];
    split; reflexivity.
Qed.

(** ** Releasing proxies *)

Lemma CubitObject_del_closed o w :
  channels w = O -> CubitObject_del o w = (Ok tt, w).
Proof.
  intros H. unfold CubitObject_del, bind.
  now rewrite (send_and_return_closed _ w H).
Qed.

Lemma del_closed o w : channels w = O -> del o w = (Ok tt, w).
Proof.
  intros H. unfold del. destruct (is_main o); [reflexivity|].
  now apply CubitObject_del_closed.
Qed.

(** C3.  With no channel left, the deletion path returns before it
    touches the channel, and the finalizers of any number of proxies,
    run one after the other, raise nothing and leave the world as it
    was: nothing is sent. *)
Theorem delete_after_teardown (w : World) (os : list CubitObject)
    (o : CubitObject) :
  channels w = O ->
  send_and_return (delete_message o) true w = (Ok PNone, w)
  /\ CubitObject_del o w = (Ok tt, w)
  /\ del_all os w = (Ok tt, w)
  /\ release (mkProxy o Live) w = (Ok (mkProxy o Released), w).
Proof.
  intros H. split; [now apply send_and_return_closed|].
  split; [now apply CubitObject_del_closed|]. split.
  - induction os as [|x rest IH]; [reflexivity|].
    cbn [del_all]. unfold bind. now rewrite (del_closed x w H).
  - unfold release. cbn. now rewrite (del_closed o w H).
Qed.

Lemma CubitObject_del_sent o w :
  let w' := snd (CubitObject_del o w) in
  channels w' = channels w
  /\ sent w' = if Nat.eqb (channels w) 0 then sent w
               else (sent w ++ [delete_message o])%list.
Proof.
  pose proof (send_and_return_sent (delete_message o) true w) as H.
  unfold CubitObject_del, bind. fold (delete_message o).
  destruct (send_and_return (delete_message o) true w) as [[v|e] w1];
    cbn in *; exact H.
Qed.

(** C4, as the code has it.  Releasing a live proxy that is not the
    root proxy runs the deletion once: it sends the one message
    [["delete", handle]] when a channel is left, and nothing when none
    is; this holds for each proxy, also when another proxy carries the
    same handle, so that two such proxies send the message twice.  A
    released proxy sends nothing when it is released again, and the
    root proxy sends nothing at all. *)
Theorem release_sends_delete (w : World) (p q : Proxy) :
  proxy_state p = Live ->
  (is_main (proxy_object p) = true -> release p w = (Ok (released p), w))
  /\ (is_main (proxy_object p) = false ->
      exists w',
        release p w = (Ok (released p), w')
        /\ channels w' = channels w
        /\ sent w' = (if Nat.eqb (channels w) 0 then sent w
                      else sent w ++ [delete_message (proxy_object p)])%list
        /\ (proxy_state q = Live -> is_main (proxy_object q) = false ->
            cubit_id (proxy_object q) = cubit_id (proxy_object p) ->
            sent (snd (release q w'))
            = (if Nat.eqb (channels w) 0 then sent w
               else sent w ++ [delete_message (proxy_object p);
                               delete_message (proxy_object p)])%list))
  /\ (forall w', release (released p) w' = (Ok (released p), w')).
Proof.
  intros Hlive. split; [|split].
  - intros Hm. unfold release, del. now rewrite Hlive, Hm.
  - intros Hm. unfold release at 1, del at 1. rewrite Hlive, Hm.
    eexists. split; [reflexivity|].
    destruct (CubitObject_del_sent (proxy_object p) w) as [Hc Hs].
    split; [exact Hc|]. split; [exact Hs|].
    intros Hq Hqm Hid. unfold release, del. rewrite Hq, Hqm. cbn [snd].
    destruct (CubitObject_del_sent (proxy_object q)
                (snd (CubitObject_del (proxy_object p) w))) as [_ Hs2].
    rewrite Hs2, Hc, Hs. unfold delete_message. rewrite Hid.
    destruct (Nat.eqb (channels w) 0); [reflexivity|].
    now rewrite <- app_assoc.
  - intros w'. reflexivity.
Qed.

End Connection.

(** * Facts about proxies *)

Lemma decode_ok_proxies reply v p :
  decode reply = Ok v -> In p (proxies_of v) ->
  recognized (cubit_id p) = true /\ is_main p = false
  /\ (cubit_id p = reply \/ exists items, reply = PList items /\ In (cubit_id p) items).
Proof.
  intros H Hin.
  destruct (decode_cases reply)
    as [[Hr E] | [[Hb E] | (Hr & Hb & [(l & -> & Hall & E)
                                      | [(b & x & a & -> & Hbf & Hx & E)
                                        | [Hnl E]]])]];
    rewrite E in H.
  - inversion H; subst v. cbn in Hin. destruct Hin as [<- | []]. cbn. auto.
  - unfold bad_token in Hb. destruct (cubit_item_to_id reply); discriminate.
  - inversion H; subst v. cbn [proxies_of] in Hin.
    apply in_flat_map in Hin. destruct Hin as (y & Hy & Hp).
    apply in_map_iff in Hy. destruct Hy as (x & <- & Hx).
    rewrite forallb_forall in Hall. specialize (Hall x Hx).
    unfold decoded_entry in Hp. destruct (recognized x) eqn:Hrx.
    + destruct Hp as [<- | []]. cbn. split; [assumption|]. split; [reflexivity|].
      right. eauto.
    + unfold entry_ok in Hall. rewrite Hrx in Hall. cbn in Hall.
      destruct x; try discriminate Hall; destruct Hp.
  - destruct (cubit_item_to_id x); discriminate.
  - destruct (is_base_type reply) eqn:Hbase; [|discriminate].
    inversion H; subst v.
    destruct reply; try discriminate Hbase; destruct Hin.
Qed.

Section Proxies.

Context {rt : Runtime}.

Lemma string_length_0 s : String.length s = O -> s = EmptyString.
Proof. destruct s; [reflexivity | discriminate]. Qed.

Lemma empty_log_empties w :
  empty_log w = (Ok tt, mkWorld (channels w) (sent w) (remote_state w) EmptyString (stdout w)).
Proof.
  unfold empty_log. destruct (Nat.eqb (String.length (log_file w)) 0) eqn:E.
  - apply Nat.eqb_eq, string_length_0 in E. cbn. destruct w; cbn in *. now subst.
  - reflexivity.
Qed.

(** A call either fails on the channel or ends as the decoding of the
    reply ends. *)
Lemma function_result self o name args w :
  fst (function self o name args w) = Raise TransportError
  \/ exists reply, fst (function self o name args w) = decode reply.
Proof.
  unfold function, bind.
  destruct (if log_check self then empty_log else ret tt) as [] eqn:E.
  assert (Ho : o0 = Ok tt).
  { destruct (log_check self).
    - rewrite empty_log_empties in E. now inversion E.
    - now inversion E. }
  subst o0. set (m := PList _).
  unfold send_and_return, channel_send_receive. cbn [andb].
  destruct (remote (remote_state w0) (log_file w0) m) as [[[r l] reply]|].
  - right. exists reply. destruct (log_check self); reflexivity.
  - now left.
Qed.

(** When the remote side answers, the call sends its one message, with
    the encoded arguments, and decodes the reply; with the log check on,
    the log file is empty when the message is sent and is printed after
    the reply. *)
Lemma function_answered self o name args w r log reply :
  remote (remote_state w) (if log_check self then EmptyString else log_file w)
    (call_message o name (serialize_item (PTuple args))) = Some (r, log, reply) ->
  function self o name args w
  = (decode reply,
     mkWorld (channels w)
       (sent w ++ [call_message o name (serialize_item (PTuple args))]) r log
       (if log_check self then stdout w ++ log else stdout w)).
Proof.
  intros H. unfold function, bind. fold (call_message o name (serialize_item (PTuple args))).
  destruct (log_check self).
  - rewrite empty_log_empties.
    erewrite send_and_return_answered; [|now left | exact H].
    unfold print_log, lift, answered. cbn. reflexivity.
  - unfold ret at 1.
    erewrite send_and_return_answered; [|now left | exact H].
    unfold ret, lift, answered. cbn. reflexivity.
Qed.

(** A value that the remote side sends back as it received it comes
    back from the call as it was given. *)
Lemma function_echo self o name x w r log :
  plain_scalar x = true ->
  remote (remote_state w) (if log_check self then EmptyString else log_file w)
    (call_message o name (PList [x])) = Some (r, log, x) ->
  fst (function self o name [x] w) = Ok x.
Proof.
  intros Hx H.
  assert (Es : serialize_item (PTuple [x]) = PList [x])
    by (destruct x; try discriminate Hx; reflexivity).
  rewrite <- Es in H. rewrite (function_answered self o name [x] w r log x H).
  cbn [fst]. destruct x; try discriminate Hx; reflexivity.
Qed.

(** C10.  The constructor raises the type error on every data list the
    classification does not take for a handle, and a proxy it returns
    holds the data list it was given, which is a handle.  So every proxy
    a program can reach (one it constructed, the root proxy, or one
    returned by a call) holds a handle; and the proxies a decoded reply
    contains are plain proxies built from the reply, or from an entry of
    it, that was classified as a handle. *)
Theorem reachable_proxy_holds_handle :
  (forall data,
      cubit_item_to_id data = Ok None ->
      CubitObject_init data = Raise (TypeError "Wrong type {}" [data]))
  /\ (forall data o,
        CubitObject_init data = Ok o ->
        cubit_id o = data /\ exists n, cubit_item_to_id (cubit_id o) = Ok (Some n))
  /\ (forall p, Reachable p -> exists n, cubit_item_to_id (cubit_id p) = Ok (Some n))
  /\ (forall reply v p,
        decode reply = Ok v -> In p (proxies_of v) ->
        recognized (cubit_id p) = true
        /\ (cubit_id p = reply
            \/ exists items, reply = PList items /\ In (cubit_id p) items)).
Proof.
  split; [exact CubitObject_init_not_handle|]. split; [|split].
  - intros data o H. destruct (CubitObject_init_ok data o H) as [-> Hr].
    split; [reflexivity|]. now apply recognized_some.
  - intros p Hp. apply recognized_some.
    induction Hp as [data o H | args path w self w' H | self o name args w v w' p _ _ H Hin].
    + now destruct (CubitObject_init_ok data o H) as [-> Hr].
    + unfold CubitConnect_init in H. destruct path as [path|]; [|discriminate H].
      unfold bind in H.
      destruct (send_and_return _ false w) as [[a|e] w1]; [|discriminate H].
      destruct (send_and_return _ false w1) as [[id|e] w2]; [|discriminate H].
      unfold lift in H.
      destruct (CubitObjectMain_init id) as [c|e] eqn:Ec; [|discriminate H].
      cbn in H. inversion H; subst self w'. cbn.
      now destruct (CubitObjectMain_init_ok id c Ec) as [-> Hr].
    + destruct (function_result self o name args w) as [E | [reply E]];
        rewrite H in E; cbn in E; [discriminate E|].
      symmetry in E. now destruct (decode_ok_proxies reply v p E Hin).
  - intros reply v p H Hin.
    destruct (decode_ok_proxies reply v p H Hin) as (Hr & _ & Hfrom). auto.
Qed.

End Proxies.

(** * Facts about attribute access, the constructor and geometry types *)

Section Resolution.

Context {rt : Runtime}.

(** C1, as the code has it.  For a name the python3 object does not
    answer by itself, the access first asks [iscallable].  On a true
    answer it returns the closure [function], which waits for its
    arguments, and nothing but the question has been sent.  On a false
    answer it performs the call with no arguments at once and returns
    the decoded reply. *)
Theorem attribute_resolution (self : CubitConnect) (o : CubitObject)
    (name : string) (w : World) (r1 : R) (log1 : string) (callable : PyVal) :
  object_getattribute o name = None ->
  remote (remote_state w) (log_file w) (iscallable_message o name)
  = Some (r1, log1, callable) ->
  (Py.truthy callable = true ->
   CubitObject_getattribute self o name w
   = (Ok (AttrFunction (function self o name)),
      answered w [iscallable_message o name] r1 log1))
  /\ (Py.truthy callable = false ->
      forall r2 log2 reply,
        remote r1 (if log_check self then EmptyString else log1)
          (call_message o name (PList [])) = Some (r2, log2, reply) ->
        CubitObject_getattribute self o name w
        = (obind (decode reply) (fun v => Ok (AttrValue v)),
           mkWorld (channels w)
             (sent w ++ [iscallable_message o name; call_message o name (PList [])])
             r2 log2
             (if log_check self then stdout w ++ log2 else stdout w))).
Proof.
  intros Hlocal Hasked.
  assert (E : CubitObject_getattribute self o name w
              = if Py.truthy callable
                then (Ok (AttrFunction (function self o name)),
                      answered w [iscallable_message o name] r1 log1)
                else bind (function self o name [])
                       (fun v => ret (AttrValue v))
                       (answered w [iscallable_message o name] r1 log1)).
  { unfold CubitObject_getattribute. rewrite Hlocal.
    unfold get_attribute, bind at 1. fold (iscallable_message o name).
    rewrite (send_and_return_answered _ false w r1 log1 callable
               (or_introl eq_refl) Hasked).
    destruct (Py.truthy callable); reflexivity. }
  split.
  - intros Ht. now rewrite E, Ht.
  - intros Ht r2 log2 reply Hcall. rewrite E, Ht. unfold bind.
    rewrite (function_answered self o name []
               (answered w [iscallable_message o name] r1 log1) r2 log2 reply Hcall).
    cbn. rewrite <- app_assoc. cbn.
    destruct (decode reply); reflexivity.
Qed.

(** ** The constructor of the connection *)

Lemma log_given_existsb cubit_arguments :
  log_given cubit_arguments
  = existsb (fun arg => Py.startswith arg "-log=") cubit_arguments.
Proof.
  induction cubit_arguments as [|arg rest IH]; [reflexivity|].
  cbn [log_given existsb]. rewrite IH.
  destruct (Py.startswith arg "-log="); reflexivity.
Qed.

Lemma CubitConnect_init_unfold cubit_arguments path :
  let capture := negb (log_given cubit_arguments) in
  CubitConnect_init cubit_arguments (Some path)
  = bind (send_and_return (parameters_message path capture) false) (fun _ =>
    bind (send_and_return
            (init_message (launch_arguments cubit_arguments capture)) false)
      (fun cubit_id =>
    bind (lift (CubitObjectMain_init cubit_id)) (fun cubit =>
    ret (mkCubitConnect capture cubit)))).
Proof.
  unfold CubitConnect_init, parameters_message, launch_arguments, init_message.
  destruct (log_given cubit_arguments); cbn [negb]; [|reflexivity].
  now rewrite (app_nil_r cubit_arguments).
Qed.

(** C8.  Without the path to cubit the constructor raises the
    configuration error and sends nothing.  With it, log capture is on
    exactly when no argument begins with [-log=]; then the arguments of
    the init message are the given ones followed by the log option and
    the temporary log file, and else they are the given ones. *)
Theorem CubitConnect_init_log_capture (cubit_arguments : list string)
    (path : string) (w : World) :
  let capture :=
    negb (existsb (fun arg => Py.startswith arg "-log=") cubit_arguments) in
  CubitConnect_init cubit_arguments None w
  = (Raise (ValueError "Path to cubit was not given!" []), w)
  /\ launch_arguments cubit_arguments true
     = (cubit_arguments ++ ["-log"; temp_log])%list
  /\ launch_arguments cubit_arguments false = cubit_arguments
  /\ (forall r1 log1 ack r2 log2 cubit_id,
        remote (remote_state w) (log_file w) (parameters_message path capture)
        = Some (r1, log1, ack) ->
        remote r1 log1 (init_message (launch_arguments cubit_arguments capture))
        = Some (r2, log2, cubit_id) ->
        recognized cubit_id = true ->
        CubitConnect_init cubit_arguments (Some path) w
        = (Ok (mkCubitConnect capture (mkCubitObject true cubit_id)),
           answered w
             [parameters_message path capture;
              init_message (launch_arguments cubit_arguments capture)]
             r2 log2))
  /\ (forall self w',
        CubitConnect_init cubit_arguments (Some path) w = (Ok self, w') ->
        log_check self = capture
        /\ sent w'
           = (sent w ++ [parameters_message path capture;
                         init_message (launch_arguments cubit_arguments capture)])%list).
Proof.
  intros capture. subst capture. rewrite <- log_given_existsb.
  split; [reflexivity|]. split; [reflexivity|].
  split; [apply app_nil_r|]. split.
  - intros r1 log1 ack r2 log2 cubit_id H1 H2 Hr.
    rewrite CubitConnect_init_unfold. cbv zeta. unfold bind.
    rewrite (send_and_return_answered _ false w r1 log1 ack (or_introl eq_refl) H1).
    rewrite (send_and_return_answered _ false (answered w _ r1 log1) r2 log2
               cubit_id (or_introl eq_refl) H2).
    unfold lift, CubitObjectMain_init.
    rewrite (CubitObject_init_recognized cubit_id Hr). cbn.
    unfold ret, answered. cbn. now rewrite <- app_assoc.
  - intros self w' H. rewrite CubitConnect_init_unfold in H. cbv zeta in H.
    unfold bind in H.
    pose proof (send_and_return_sent
                  (parameters_message path (negb (log_given cubit_arguments)))
                  false w) as [_ Hs1].
    destruct (send_and_return (parameters_message _ _) false w) as [[a|e] w1];
      [|discriminate H].
    pose proof (send_and_return_sent
                  (init_message (launch_arguments cubit_arguments
                                   (negb (log_given cubit_arguments))))
                  false w1) as [_ Hs2].
    destruct (send_and_return (init_message _) false w1) as [[id|e] w2];
      [|discriminate H].
    unfold lift in H. destruct (CubitObjectMain_init id) as [c|e]; [|discriminate H].
    cbn in H. inversion H; subst self w'. cbn in *.
    split; [reflexivity|]. rewrite Hs2, Hs1. now rewrite <- app_assoc.
Qed.

End Resolution.

Section Geometry.

Context {rt : Runtime}.

Lemma send_and_return_raises message check w e w' :
  send_and_return message check w = (Raise e, w') -> e = TransportError.
Proof.
  unfold send_and_return, channel_send_receive.
  destruct (check && Nat.eqb (channels w) 0); [discriminate|].
  destruct (remote (remote_state w) (log_file w) message) as [[[r l] v]|];
    intros H; inversion H; reflexivity.
Qed.

Lemma get_geometry_type_first_match o w :
  get_geometry_type o w = first_match o categories w.
Proof. reflexivity. Qed.

Lemma utils_get_geometry_type_first_match o w :
  utils_get_geometry_type (ItemObject o) w = first_match o categories w.
Proof. reflexivity. Qed.

(** The search returns a kind exactly when the queries before the one
    for that kind were answered and not true, and the one for it was
    answered true. *)
Lemma first_match_hit o cs : forall w k w',
  first_match o cs w = (Ok k, w')
  <-> exists before category after w1 b,
        cs = (before ++ (category, k) :: after)%list
        /\ misses o before w = Some w1
        /\ CubitObject_isinstance o category w1 = (Ok b, w')
        /\ Py.truthy b = true.
Proof.
  induction cs as [|[c0 k0] rest IH]; intros w k w'.
  - split.
    + discriminate.
    + intros (before & c & after & w1 & b & E & _). now destruct before.
  - cbn [first_match]. unfold bind. split.
    + destruct (CubitObject_isinstance o c0 w) as [[b|e] w1] eqn:Eq; [|discriminate].
      destruct (Py.truthy b) eqn:Hb.
      * intros H. inversion H; subst k0 w1.
        exists [], c0, rest, w, b. auto.
      * intros H. apply IH in H.
        destruct H as (before & c & after & w2 & b' & -> & Hm & Hq & Ht).
        exists ((c0, k0) :: before), c, after, w2, b'.
        cbn [misses app]. rewrite Eq, Hb. auto.
    + intros (before & c & after & w1 & b & E & Hm & Hq & Ht).
      destruct before as [|[c1 k1] before]; cbn [app] in E; inversion E; subst.
      * cbn in Hm. inversion Hm; subst w1. now rewrite Hq, Ht.
      * cbn [misses] in Hm.
        destruct (CubitObject_isinstance o c1 w) as [[b1|e] w2]; [|discriminate].
        destruct (Py.truthy b1); [discriminate|].
        apply IH. exists before, c, after, w1, b. auto.
Qed.

(** The search raises the type error exactly when every query was
    answered and none was true. *)
Lemma first_match_none o cs : forall w w',
  first_match o cs w = (Raise not_a_geometry, w') <-> misses o cs w = Some w'.
Proof.
  induction cs as [|[c0 k0] rest IH]; intros w w'.
  - cbn. unfold raise. split; intros H; inversion H; reflexivity.
  - cbn [first_match misses]. unfold bind.
    destruct (CubitObject_isinstance o c0 w) as [[b|e] w1] eqn:Eq.
    + destruct (Py.truthy b); [split; discriminate | apply IH].
    + apply send_and_return_raises in Eq. subst e. split; discriminate.
Qed.

Lemma first_match_TypeError o cs : forall w e w',
  first_match o cs w = (Raise e, w') -> is_TypeError e = true -> e = not_a_geometry.
Proof.
  induction cs as [|[c0 k0] rest IH]; intros w e w'.
  - cbn. unfold raise. intros H _. now inversion H.
  - cbn [first_match]. unfold bind.
    destruct (CubitObject_isinstance o c0 w) as [[b|e0] w1] eqn:Eq.
    + destruct (Py.truthy b); [discriminate | apply IH].
    + apply send_and_return_raises in Eq. subst e0.
      intros H. inversion H; subst e. discriminate.
Qed.

(** C9, as the code has it.  Both functions ask [isinstance] for the
    categories vertex, curve, surface and volume in this order and
    return the kind of the first category that is answered true; when
    all four are answered and none is true they raise the type error
    with the fixed message, which carries no value. *)
Theorem geometry_type_first_match (o : CubitObject) (w : World) :
  get_geometry_type o w = first_match o categories w
  /\ utils_get_geometry_type (ItemObject o) w = first_match o categories w
  /\ categories = [("cubitpy_vertex", vertex); ("cubitpy_curve", curve);
                   ("cubitpy_surface", surface); ("cubitpy_volume", volume)]
  /\ (forall k w',
        get_geometry_type o w = (Ok k, w')
        <-> exists before category after w1 b,
              categories = (before ++ (category, k) :: after)%list
              /\ misses o before w = Some w1
              /\ send_and_return (isinstance_message o category) false w1
                 = (Ok b, w')
              /\ Py.truthy b = true)
  /\ (forall w',
        misses o categories w = Some w'
        <-> get_geometry_type o w
            = (Raise (TypeError "The item is not a valid geometry!" []), w'))
  /\ (forall e w',
        get_geometry_type o w = (Raise e, w') -> is_TypeError e = true ->
        e = TypeError "The item is not a valid geometry!" []
        /\ exc_args e = []).
Proof.
  split; [reflexivity|]. split; [reflexivity|]. split; [reflexivity|].
  split; [|split].
  - intros k w'. rewrite get_geometry_type_first_match. apply first_match_hit.
  - intros w'. rewrite get_geometry_type_first_match. symmetry.
    apply first_match_none.
  - intros e w' H He. rewrite get_geometry_type_first_match in H.
    rewrite (first_match_TypeError o categories w e w' H He). split; reflexivity.
Qed.

End Geometry.

(** * The statements at work on the small remote side *)

#[local] Existing Instance Demo.runtime.

(** [mesh] is callable: the access returns the closure and has only
    asked.  [id] is not: the access has asked, called, and returns the
    decoded 5. *)
Lemma attribute_resolution_witness :
  CubitObject_getattribute Demo.connection Demo.vertex_42 "mesh" (Demo.world 1)
  = (Ok (AttrFunction (function Demo.connection Demo.vertex_42 "mesh")),
     Demo.state 1 [iscallable_message Demo.vertex_42 "mesh"] 1%nat
       EmptyString EmptyString)
  /\ CubitObject_getattribute Demo.connection Demo.vertex_42 "id" (Demo.world 1)
     = (Ok (AttrValue (PInt 5)),
        Demo.state 1 [iscallable_message Demo.vertex_42 "id";
                   call_message Demo.vertex_42 "id" (PList [])]
          2%nat "id;" "id;").
Proof.
  split.
  - exact (proj1 (attribute_resolution (rt := Demo.runtime) Demo.connection
                    Demo.vertex_42 "mesh" (Demo.world 1) 1%nat EmptyString (PBool true)
                    eq_refl eq_refl) eq_refl).
  - exact (proj2 (attribute_resolution (rt := Demo.runtime) Demo.connection
                    Demo.vertex_42 "id" (Demo.world 1) 1%nat EmptyString
                    (PBool false) eq_refl eq_refl)
             eq_refl 2%nat "id;" (PInt 5) eq_refl).
Defined.

(** C1 as it is stated fails for the names the python3 object answers
    by itself: the access to [cubit_id] returns the handle and asks
    nothing. *)
Lemma local_attribute_asks_nothing :
  CubitObject_getattribute Demo.connection Demo.vertex_42 "cubit_id" (Demo.world 1)
  = (Ok (AttrValue (Demo.handle "42" "<Vertex>")), Demo.world 1)
  /\ ~ In (iscallable_message Demo.vertex_42 "cubit_id")
         (sent (snd (CubitObject_getattribute Demo.connection Demo.vertex_42
                       "cubit_id" (Demo.world 1)))).
Proof. split; [reflexivity | intros []]. Qed.


Lemma delete_after_teardown_witness :
  channels (Demo.world 0) = O
  /\ del_all [Demo.vertex_42; Demo.curve_9; Demo.vertex_42] (Demo.world 0)
     = (Ok tt, Demo.world 0).
Proof.
  split; [reflexivity|].
  exact (proj1 (proj2 (proj2
           (delete_after_teardown (rt := Demo.runtime) (Demo.world 0)
              [Demo.vertex_42; Demo.curve_9; Demo.vertex_42] Demo.vertex_42
              eq_refl)))).
Defined.

(** With a channel, two live proxies for the same handle send the
    delete message twice. *)
Lemma release_sends_delete_witness :
  sent (snd (release (mkProxy Demo.vertex_42 Live)
               (snd (release (mkProxy Demo.vertex_42 Live) (Demo.world 1)))))
  = [delete_message Demo.vertex_42; delete_message Demo.vertex_42].
Proof.
  destruct (proj1 (proj2 (release_sends_delete (rt := Demo.runtime) (Demo.world 1)
                            (mkProxy Demo.vertex_42 Live)
                            (mkProxy Demo.vertex_42 Live) eq_refl)) eq_refl)
    as (w' & Hrel & _ & _ & Htwice).
  rewrite Hrel. exact (Htwice eq_refl eq_refl eq_refl).
Defined.

(** C4 as it is stated fails once no channel is left: the release of a
    live proxy that is not the root proxy sends no delete message. *)
Lemma release_after_teardown_sends_nothing :
  proxy_state (mkProxy Demo.vertex_42 Live) = Live
  /\ is_main Demo.vertex_42 = false
  /\ sent (snd (release (mkProxy Demo.vertex_42 Live) (Demo.world 0))) = []
  /\ ~ In (delete_message Demo.vertex_42)
         (sent (snd (release (mkProxy Demo.vertex_42 Live) (Demo.world 0)))).
Proof. repeat split; intros []. Qed.

Lemma CubitConnect_init_log_capture_witness :
  CubitConnect_init ["-nographics"] (Some "/opt/cubit") (Demo.world 1)
  = (Ok Demo.connection,
     Demo.state 1
       [parameters_message "/opt/cubit" true;
        init_message ["-nographics"; "-log"; "/tmp/cubitpy.log"]]
       2%nat "cubit started;" EmptyString)
  /\ CubitConnect_init ["-nographics"; "-log=/dev/null"] (Some "/opt/cubit")
       (Demo.world 1)
     = (Ok (mkCubitConnect false (cubit Demo.connection)),
        Demo.state 1
          [parameters_message "/opt/cubit" false;
           init_message ["-nographics"; "-log=/dev/null"]]
          2%nat "cubit started;" EmptyString).
Proof.
  split.
  - exact (proj1 (proj2 (proj2 (proj2
             (CubitConnect_init_log_capture (rt := Demo.runtime) ["-nographics"]
                "/opt/cubit" (Demo.world 1)))))
             1%nat EmptyString PNone 2%nat "cubit started;" (Demo.handle "1" "<cubit>")
             eq_refl eq_refl eq_refl).
  - exact (proj1 (proj2 (proj2 (proj2
             (CubitConnect_init_log_capture (rt := Demo.runtime)
                ["-nographics"; "-log=/dev/null"] "/opt/cubit" (Demo.world 1)))))
             1%nat EmptyString PNone 2%nat "cubit started;" (Demo.handle "1" "<cubit>")
             eq_refl eq_refl eq_refl).
Defined.

(** A curve is found at the second query, and nothing is asked after
    it. *)
Lemma geometry_type_first_match_witness :
  get_geometry_type Demo.curve_9 (Demo.world 1)
  = (Ok curve,
     Demo.state 1 [isinstance_message Demo.curve_9 "cubitpy_vertex";
                isinstance_message Demo.curve_9 "cubitpy_curve"] 2%nat EmptyString EmptyString).
Proof.
  apply (proj2 (proj1 (proj2 (proj2 (proj2
           (geometry_type_first_match (rt := Demo.runtime) Demo.curve_9
              (Demo.world 1))))) curve _)).
  exists [("cubitpy_vertex", vertex)], "cubitpy_curve",
    [("cubitpy_surface", surface); ("cubitpy_volume", volume)],
    (Demo.state 1 [isinstance_message Demo.curve_9 "cubitpy_vertex"] 1%nat EmptyString EmptyString),
    (PBool true).
  repeat split.
Defined.

(** C9 as it is stated fails in its last part: the error raised for an
    object of no category is the fixed message, and carries neither the
    object nor its handle. *)
Lemma geometry_error_names_no_object :
  exists e,
    fst (get_geometry_type Demo.body_7 (Demo.world 1)) = Raise e
    /\ is_TypeError e = true
    /\ exc_args e = []
    /\ ~ In (PObj Demo.body_7) (exc_args e)
    /\ ~ In (cubit_id Demo.body_7) (exc_args e).
Proof.
  exists (TypeError "The item is not a valid geometry!" []).
  repeat split; intros [].
Qed.

Lemma reachable_proxy_holds_handle_witness :
  Reachable (rt := Demo.runtime) Demo.vertex_42
  /\ exists n, cubit_item_to_id (cubit_id Demo.vertex_42) = Ok (Some n).
Proof.
  assert (H : Reachable (rt := Demo.runtime) Demo.vertex_42)
    by exact (reach_new (Demo.handle "42" "<Vertex>") Demo.vertex_42 eq_refl).
  split; [exact H|].
  exact (proj1 (proj2 (proj2 (reachable_proxy_holds_handle (rt := Demo.runtime))))
           Demo.vertex_42 H).
Defined.

(** * Further facts: handles and decoding *)

(** What [object_to_id] builds for an object with the python id [id]
    is classified as that id, whatever the object prints as, and the
    constructor of a proxy accepts it, as long as the id has at most
    the 4300 digits that [int] converts; for an id of more digits the
    classification raises the value error of [int].  A python id that
    is an address of a 64-bit machine has at most 20 digits. *)
Theorem object_to_id_is_classified (id : nat) (display : string) :
  ((String.length (Py.str_of_nat id) <= 4300)%nat ->
   cubit_item_to_id (object_to_id id display) = Ok (Some (Z.of_nat id))
   /\ CubitObject_init (object_to_id id display)
      = Ok (mkCubitObject false (object_to_id id display))
   /\ decode (object_to_id id display)
      = Ok (PCubitObject false (object_to_id id display)))
  /\ ((4300 < String.length (Py.str_of_nat id))%nat ->
      cubit_item_to_id (object_to_id id display)
      = Raise (Py.exceeds_limit (String.length (Py.str_of_nat id))))
  /\ (Z.of_nat id < 2 ^ 64 -> (String.length (Py.str_of_nat id) <= 20)%nat).
Proof.
  split; [|split].
  - intros Hl.
    pose proof (cubit_item_to_id_object_to_id id display Hl) as E.
    assert (Hr : recognized (object_to_id id display) = true)
      by (unfold recognized; now rewrite E).
    split; [exact E|]. split.
    + now apply CubitObject_init_recognized.
    + now apply decode_handle.
  - intros Hl. unfold object_to_id.
    apply cubit_item_to_id_too_long; [apply string_of_uint_all_digits | exact Hl].
  - apply str_of_nat_length.
Qed.

Lemma object_to_id_is_classified_witness :
  cubit_item_to_id (object_to_id 42 "<Vertex>") = Ok (Some 42).
Proof.
  apply (proj1 (object_to_id_is_classified 42 "<Vertex>")). cbn. lia.
Defined.

(** A list whose first entry is the prefix followed by decimal digits,
    at most the 4300 that [int] converts, is classified as the number
    the digits spell, which is not negative; with more digits the
    classification raises the value error of [int].  What follows the
    first entry plays no part, and there need be nothing. *)
Theorem prefixed_digits_are_classified (digits : string) (rest : list PyVal) :
  all_digits digits = true -> digits <> EmptyString ->
  ((String.length digits <= 4300)%nat ->
   cubit_item_to_id (PList (PStr (id_prefix ++ digits) :: rest))
   = Ok (Some (decimal_value digits 0))
   /\ 0 <= decimal_value digits 0)
  /\ ((4300 < String.length digits)%nat ->
      cubit_item_to_id (PList (PStr (id_prefix ++ digits) :: rest))
      = Raise (Py.exceeds_limit (String.length digits)))
  /\ cubit_item_to_id (PList (PStr (id_prefix ++ digits) :: rest))
     = cubit_item_to_id (PList [PStr (id_prefix ++ digits)]).
Proof.
  intros Hd Hne. split; [|split].
  - intros Hl. split; [now apply cubit_item_to_id_handle|].
    apply decimal_value_nonneg; [assumption | lia].
  - intros Hl. now apply cubit_item_to_id_too_long.
  - reflexivity.
Qed.

Lemma prefixed_digits_are_classified_witness :
  cubit_item_to_id (PList [PStr (id_prefix ++ "007"); PInt 3; PNone])
  = Ok (Some (decimal_value "007" 0)).
Proof.
  apply (proj1 (prefixed_digits_are_classified "007" [PInt 3; PNone] eq_refl
                  ltac:(discriminate))).
  cbn. lia.
Defined.

(** When neither the reply nor an entry of it carries the prefix
    without an integer that [int] converts after it, decoding raises
    the type error exactly
    for the replies that are no handle, no list of handles and
    primitives, and no primitive; every other reply gives the proxy,
    the list with a proxy for each handle, or the primitive itself. *)
Theorem decode_without_bad_token (reply : PyVal) :
  tokens_well_formed reply = true ->
  ((exists template args, decode reply = Raise (TypeError template args))
   <-> decodable reply = false)
  /\ (decodable reply = false -> exists x, decode reply = Raise (decode_error x))
  /\ (decodable reply = true ->
      decode reply
      = Ok (if recognized reply then PCubitObject false reply
            else match reply with
                 | PList items => PList (map decoded_entry items)
                 | _ => reply
                 end)).
Proof.
  intros Hw. split; [now apply decode_TypeError_iff|].
  exact (decode_well_formed reply Hw).
Qed.

Lemma decode_without_bad_token_witness :
  decode (PList [PInt 1; object_to_id 7 "<Body>"; PStr "x"])
  = Ok (PList [PInt 1; PCubitObject false (object_to_id 7 "<Body>"); PStr "x"])
  /\ exists x, decode (PTuple [PInt 1]) = Raise (decode_error x).
Proof.
  split.
  - exact (proj2 (proj2 (decode_without_bad_token
                           (PList [PInt 1; object_to_id 7 "<Body>"; PStr "x"])
                           eq_refl)) eq_refl).
  - exact (proj1 (proj2 (decode_without_bad_token (PTuple [PInt 1]) eq_refl))
             eq_refl).
Defined.

(** A type error of the decoding carries one value: the reply itself
    when it is no list, and else the first entry of the list that is
    neither a handle nor a primitive; the entries before it were all
    handles or primitives. *)
Theorem decode_error_carries_first_bad_entry (reply : PyVal)
    (template : string) (args : list PyVal) :
  decode reply = Raise (TypeError template args) ->
  template = "Expected cubit object, or base_type, got {}!"
  /\ (((forall l, reply <> PList l) /\ args = [reply] /\ entry_ok reply = false)
      \/ exists before x after,
           reply = PList (before ++ x :: after)
           /\ forallb entry_ok before = true
           /\ entry_ok x = false
           /\ args = [x]).
Proof.
  intros H.
  destruct (decode_cases reply)
    as [[_ E] | [[Hb E] | (Hr & Hb & [(l & -> & _ & E)
                                     | [(b & x & a & -> & Hbf & Hx & E)
                                       | [Hnl E]]])]];
    rewrite E in H; try discriminate H.
  - destruct (cubit_item_to_id reply) as [o|e] eqn:Ec; cbn in H; try discriminate H.
    apply cubit_item_to_id_never_TypeError in Ec. inversion H; subst e. discriminate Ec.
  - destruct (cubit_item_to_id x) as [o|e] eqn:Ec.
    + inversion H; subst. split; [reflexivity|]. right. exists b, x, a. auto.
    + apply cubit_item_to_id_never_TypeError in Ec. inversion H; subst e. discriminate Ec.
  - destruct (is_base_type reply) eqn:Hbase; try discriminate H.
    inversion H; subst. split; [reflexivity|]. left.
    split; [assumption|]. split; [reflexivity|].
    unfold entry_ok. now rewrite Hr, Hbase.
Qed.

Lemma decode_error_carries_first_bad_entry_witness :
  exists before x after,
    PList [PInt 1; PTuple []; PDict []] = PList (before ++ x :: after)
    /\ forallb entry_ok before = true
    /\ entry_ok x = false
    /\ [PTuple []] = [x].
Proof.
  destruct (proj2 (decode_error_carries_first_bad_entry
                     (PList [PInt 1; PTuple []; PDict []])
                     "Expected cubit object, or base_type, got {}!" [PTuple []]
                     eq_refl))
    as [(Hnl & _) | H].
  - exfalso. exact (Hnl _ eq_refl).
  - exact H.
Defined.

(** * Further facts: what is sent and comes back *)

(** A proxy that holds a handle, encoded and decoded as a reply, comes
    back as a plain proxy for the same handle. *)
Theorem proxy_round_trip (o : CubitObject) :
  recognized (cubit_id o) = true ->
  decode (serialize_item (PObj o)) = Ok (PCubitObject false (cubit_id o)).
Proof. intros H. cbn. now apply decode_handle. Qed.

Lemma proxy_round_trip_witness :
  decode (serialize_item (PObj Demo.vertex_42))
  = Ok (PCubitObject false (cubit_id Demo.vertex_42)).
Proof. exact (proxy_round_trip Demo.vertex_42 eq_refl). Defined.






(** A list whose first entry is a str made of the prefix and decimal
    digits does not come back as a list.  With at most the 4300 digits
    that [int] converts, the decoding takes what was sent for a handle
    and returns a proxy for it; with more digits it raises the value
    error of [int]. *)
Theorem string_list_comes_back_as_proxy (digits : string) (rest : list PyVal) :
  all_digits digits = true -> digits <> EmptyString ->
  ((String.length digits <= 4300)%nat ->
   decode (serialize_item (PList (PStr (id_prefix ++ digits) :: rest)))
   = Ok (PCubitObject false
           (PList (PStr (id_prefix ++ digits) :: map serialize_item rest))))
  /\ ((4300 < String.length digits)%nat ->
      decode (serialize_item (PList (PStr (id_prefix ++ digits) :: rest)))
      = Raise (Py.exceeds_limit (String.length digits))).
Proof.
  intros Hd Hne. split; intros Hl; cbn [serialize_item map].
  - apply decode_handle.
    unfold recognized. now rewrite cubit_item_to_id_handle.
  - unfold decode. now rewrite cubit_item_to_id_too_long.
Qed.

Lemma string_list_comes_back_as_proxy_witness :
  decode (serialize_item (PList [PStr (id_prefix ++ "12"); PStr "name"]))
  = Ok (PCubitObject false (PList [PStr (id_prefix ++ "12"); PStr "name"])).
Proof.
  apply (proj1 (string_list_comes_back_as_proxy "12" [PStr "name"] eq_refl
                  ltac:(discriminate))).
  cbn. lia.
Defined.

(** * Further facts: the enumerations of cubitpy_types.py *)

(** Both tables of strings of a geometry type tell the four types
    apart, and the second one never reaches its [else]. *)
Theorem GeometryType_strings_tell_apart (g1 g2 : GeometryType) :
  (exists s, GeometryType_get_dat_bc_section_string g1 = Ok s)
  /\ (GeometryType_get_dat_bc_section_string g1
      = GeometryType_get_dat_bc_section_string g2 -> g1 = g2)
  /\ (get_cubit_string g1 = get_cubit_string g2 -> g1 = g2).
Proof.
  split; [destruct g1; eexists; reflexivity|].
  split; destruct g1, g2; cbn; intros H;
    first [reflexivity | discriminate H].
Qed.

(** Every finite element object has a cubit string of its own; of the
    six only the node has a section string, and asking for the one of
    another raises the error that names it. *)
Theorem FiniteElementObject_strings (f1 f2 : FiniteElementObject.t) :
  (exists s, FiniteElementObject.get_cubit_string f1 = Some s)
  /\ (FiniteElementObject.get_cubit_string f1
      = FiniteElementObject.get_cubit_string f2 -> f1 = f2)
  /\ (FiniteElementObject.get_dat_bc_section_string f1 = Ok "POINT"
      <-> f1 = FiniteElementObject.node)
  /\ (f1 <> FiniteElementObject.node ->
      FiniteElementObject.get_dat_bc_section_string f1
      = Raise (ValueError "Got unexpected type {}!"
                 [FiniteElementObject.as_value f1])).
Proof.
  split; [destruct f1; eexists; reflexivity|].
  split; [destruct f1, f2; cbn; intros H; first [reflexivity | discriminate H]|].
  split; [split|].
  - destruct f1; cbn; intros H; first [reflexivity | discriminate H].
  - intros ->. reflexivity.
  - destruct f1; intros H; first [reflexivity | now elim H].
Qed.

(** None of the four tables of an element type reaches its [else].
    The baci name tells the seven element types apart; the cubit names
    do so except for hex8, hex8sh and hex8_fluid, which share theirs. *)
Theorem ElementType_tables (e1 e2 : ElementType.t) :
  (exists names, ElementType.get_cubit_names e1 = Ok names)
  /\ (exists s, ElementType.get_baci_name e1 = Ok s)
  /\ (exists s, ElementType.get_baci_section e1 = Ok s)
  /\ (exists s, ElementType.get_default_baci_description e1 = Ok s)
  /\ (ElementType.get_baci_name e1 = ElementType.get_baci_name e2 -> e1 = e2)
  /\ (ElementType.get_cubit_names e1 = ElementType.get_cubit_names e2
      <-> e1 = e2
          \/ (In e1 [ElementType.hex8; ElementType.hex8sh; ElementType.hex8_fluid]
              /\ In e2 [ElementType.hex8; ElementType.hex8sh;
                        ElementType.hex8_fluid])).
Proof.
  split; [destruct e1; eexists; reflexivity|].
  split; [destruct e1; eexists; reflexivity|].
  split; [destruct e1; eexists; reflexivity|].
  split; [destruct e1; eexists; reflexivity|].
  split; [destruct e1, e2; cbn; intros H; first [reflexivity | discriminate H]|].
  split.
  - destruct e1, e2; cbn; intros H;
      first [now left | discriminate H | right; cbn; tauto].
  - intros [-> | [H1 H2]]; [reflexivity|].
    cbn in H1, H2.
    destruct H1 as [<- | [<- | [<- | []]]];
      destruct H2 as [<- | [<- | [<- | []]]]; reflexivity.
Qed.

(** The section of an element type is FLUID exactly when its baci name
    is, which is the case for hex8_fluid alone; every other element
    type is in the section STRUCTURE.  The scheme of the cubit names is
    Tetmesh exactly for the two tetrahedra. *)
Theorem ElementType_sections (e : ElementType.t) :
  (ElementType.get_baci_section e = Ok "FLUID"
   <-> ElementType.get_baci_name e = Ok "FLUID")
  /\ (ElementType.get_baci_section e = Ok "FLUID" <-> e = ElementType.hex8_fluid)
  /\ (e <> ElementType.hex8_fluid ->
      ElementType.get_baci_section e = Ok "STRUCTURE")
  /\ ((exists element, ElementType.get_cubit_names e = Ok ("Tetmesh", element))
      <-> e = ElementType.tet4 \/ e = ElementType.tet10).
Proof.
  split; [|split; [|split]].
  - destruct e; cbn; split; intros H; first [reflexivity | discriminate H].
  - destruct e; cbn; split; intros H; first [reflexivity | discriminate H].
  - destruct e; intros H; first [reflexivity | now elim H].
  - split.
    + intros [element H]. destruct e; cbn in H;
        first [now left | now right | discriminate H].
    + intros [-> | ->]; eexists; reflexivity.
Qed.

(** A Dirichlet and a Neumann condition have a section header for each
    of the four geometry types and for the node, which gets the header
    of the vertex; for another finite element object the error raised
    is the one of its missing section string. *)
Theorem dirichlet_neumann_headers (b : BoundaryConditionType.t)
    (g : GeometryType) (f : FiniteElementObject.t) :
  b = BoundaryConditionType.dirichlet \/ b = BoundaryConditionType.neumann ->
  (exists section,
      GeometryType_get_dat_bc_section_string g = Ok section
      /\ BoundaryConditionType.get_dat_bc_section_header b
           (BoundaryConditionType.OfGeometryType g)
         = Ok ("DESIGN " ++ section ++ " "
               ++ (if BoundaryConditionType.eqb b BoundaryConditionType.dirichlet
                   then "DIRICH" else "NEUMANN")
               ++ " CONDITIONS"))
  /\ BoundaryConditionType.get_dat_bc_section_header b
       (BoundaryConditionType.OfFiniteElementObject FiniteElementObject.node)
     = BoundaryConditionType.get_dat_bc_section_header b
         (BoundaryConditionType.OfGeometryType vertex)
  /\ (f <> FiniteElementObject.node ->
      BoundaryConditionType.get_dat_bc_section_header b
        (BoundaryConditionType.OfFiniteElementObject f)
      = Raise (ValueError "Got unexpected type {}!"
                 [FiniteElementObject.as_value f])).
Proof.
  intros [-> | ->]; (split; [|split]).
  all: try (destruct g; eexists; split; reflexivity).
  all: try reflexivity.
  all: destruct f; intros H; first [reflexivity | now elim H].
Qed.

Lemma dirichlet_neumann_headers_witness :
  BoundaryConditionType.get_dat_bc_section_header BoundaryConditionType.neumann
    (BoundaryConditionType.OfFiniteElementObject FiniteElementObject.node)
  = BoundaryConditionType.get_dat_bc_section_header BoundaryConditionType.neumann
      (BoundaryConditionType.OfGeometryType vertex).
Proof.
  exact (proj1 (proj2 (dirichlet_neumann_headers BoundaryConditionType.neumann
                         curve FiniteElementObject.hex (or_intror eq_refl)))).
Defined.

(** Every condition type has a header for some geometry type, and over
    the geometry types the header tells the condition type and the
    geometry type: no two sections of a dat file share a header. *)
Theorem section_header_tells_condition_and_geometry
    (b1 b2 : BoundaryConditionType.t) (g1 g2 : GeometryType) (header : string) :
  (exists g s,
      BoundaryConditionType.get_dat_bc_section_header b1
        (BoundaryConditionType.OfGeometryType g) = Ok s)
  /\ (BoundaryConditionType.get_dat_bc_section_header b1
        (BoundaryConditionType.OfGeometryType g1) = Ok header ->
      BoundaryConditionType.get_dat_bc_section_header b2
        (BoundaryConditionType.OfGeometryType g2) = Ok header ->
      b1 = b2 /\ g1 = g2).
Proof.
  split.
  - destruct b1;
      first [ exists vertex; eexists; reflexivity
            | exists surface; eexists; reflexivity
            | exists volume; eexists; reflexivity ].
  - intros H1 H2. rewrite <- H2 in H1. clear H2.
    destruct b1, g1; cbn in H1;
      destruct b2, g2; cbn in H1;
      first [split; reflexivity | discriminate H1].
Qed.

Lemma section_header_tells_condition_and_geometry_witness :
  BoundaryConditionType.fsi_coupling = BoundaryConditionType.fsi_coupling
  /\ surface = surface.
Proof.
  exact (proj2 (section_header_tells_condition_and_geometry
                  BoundaryConditionType.fsi_coupling
                  BoundaryConditionType.fsi_coupling surface surface
                  "DESIGN FSI COUPLING SURF CONDITIONS")
           eq_refl eq_refl).
Defined.

(** The node is taken for a point: it has every header the vertex has.
    It is also taken for a surface by the three conditions for solid
    contact, FSI coupling and ALE Dirichlet, and it has no other
    header; no other finite element object has a header at all. *)
Theorem node_headers (b : BoundaryConditionType.t) (header : string)
    (f : FiniteElementObject.t) :
  (BoundaryConditionType.get_dat_bc_section_header b
     (BoundaryConditionType.OfFiniteElementObject FiniteElementObject.node)
   = Ok header
   <-> BoundaryConditionType.get_dat_bc_section_header b
         (BoundaryConditionType.OfGeometryType vertex) = Ok header
       \/ (In b [BoundaryConditionType.solid_to_solid_surface_contact;
                 BoundaryConditionType.fsi_coupling;
                 BoundaryConditionType.ale_dirichlet]
           /\ BoundaryConditionType.get_dat_bc_section_header b
                (BoundaryConditionType.OfGeometryType surface) = Ok header))
  /\ (f <> FiniteElementObject.node ->
      exists e,
        BoundaryConditionType.get_dat_bc_section_header b
          (BoundaryConditionType.OfFiniteElementObject f) = Raise e).
Proof.
  split.
  - split.
    + destruct b; cbn; intros H;
        first [ now left
              | discriminate H
              | right; split; [cbn; tauto | exact H] ].
    + intros [H | [Hin H]].
      * destruct b; cbn in H |- *; first [exact H | discriminate H].
      * cbn in Hin. destruct Hin as [<- | [<- | [<- | []]]]; exact H.
  - destruct b, f; intros H; first [now elim H | eexists; reflexivity].
Qed.

(** * Further facts: releasing, calling and asking *)

Lemma Permutation_deleting os os' :
  Permutation os os' -> Permutation (deleting os) (deleting os').
Proof.
  unfold deleting. intros H.
  induction H as [|x l l' _ IH|x y l|l l' l'' _ IH1 _ IH2]; cbn.
  - constructor.
  - destruct (negb (is_main x)); [now constructor | exact IH].
  - destruct (negb (is_main x)), (negb (is_main y));
      try apply Permutation_refl. apply perm_swap.
  - now apply (perm_trans IH1).
Qed.

Section Further.

Context {rt : Runtime}.

Lemma del_trace o w u w1 :
  del o w = (Ok u, w1) ->
  channels w1 = channels w
  /\ sent w1
     = (sent w ++ if Nat.eqb (channels w) 0 then []
                  else map delete_message (deleting [o]))%list.
Proof.
  unfold del, deleting. cbn [filter]. destruct (is_main o); cbn [negb map].
  - unfold CubitObjectMain_del, ret. intros H. inversion H; subst w1.
    split; [reflexivity|].
    destruct (Nat.eqb (channels w) 0); now rewrite app_nil_r.
  - intros H. destruct (CubitObject_del_sent o w) as [Hc Hs].
    rewrite H in Hc, Hs. cbn in Hc, Hs. split; [exact Hc|].
    rewrite Hs. destruct (Nat.eqb (channels w) 0);
      [now rewrite app_nil_r | reflexivity].
Qed.

Lemma del_all_trace os : forall w w1,
  del_all os w = (Ok tt, w1) ->
  channels w1 = channels w
  /\ sent w1
     = (sent w ++ if Nat.eqb (channels w) 0 then []
                  else map delete_message (deleting os))%list.
Proof.
  induction os as [|o rest IH]; intros w w1 H.
  - cbn in H. inversion H; subst w1. split; [reflexivity|].
    destruct (Nat.eqb (channels w) 0); now rewrite app_nil_r.
  - cbn [del_all] in H. unfold bind in H.
    destruct (del o w) as [[u|e] wm] eqn:E; [|discriminate H].
    destruct (del_trace o w u wm E) as [Hc Hs].
    destruct (IH wm w1 H) as [Hc' Hs'].
    split; [congruence|].
    rewrite Hs', Hs, Hc. unfold deleting. cbn [filter].
    destruct (Nat.eqb (channels w) 0); [now rewrite !app_nil_r|].
    rewrite <- app_assoc. f_equal.
    destruct (negb (is_main o)); reflexivity.
Qed.

(** When the finalizers of several proxies run one after the other and
    the remote side answers each deletion, so that none of them raises,
    the messages sent are, while a channel is left, one delete message
    for each proxy that is not the root proxy, in the order of the
    finalizers, and nothing else; with no channel nothing is sent.  Run
    in another order, again with every deletion answered, the
    finalizers send the same messages in that order. *)
Theorem finalizers_send_deletes (os os' : list CubitObject) (w w1 w2 : World) :
  del_all os w = (Ok tt, w1) ->
  sent w1
  = (sent w ++ if Nat.eqb (channels w) 0 then []
               else map delete_message (deleting os))%list
  /\ (Permutation os os' ->
      del_all os' w = (Ok tt, w2) ->
      exists ms ms',
        sent w1 = (sent w ++ ms)%list
        /\ sent w2 = (sent w ++ ms')%list
        /\ Permutation ms ms').
Proof.
  intros H. destruct (del_all_trace os w w1 H) as [_ Hs].
  split; [exact Hs|].
  intros Hp H'. destruct (del_all_trace os' w w2 H') as [_ Hs'].
  eexists. eexists. split; [exact Hs|]. split; [exact Hs'|].
  destruct (Nat.eqb (channels w) 0); [constructor|].
  now apply Permutation_map, Permutation_deleting.
Qed.

(** ** Calls *)

Lemma function_failed self o name args w :
  remote (remote_state w) (if log_check self then EmptyString else log_file w)
    (call_message o name (serialize_item (PTuple args))) = None ->
  function self o name args w
  = (Raise TransportError,
     mkWorld (channels w)
       (sent w ++ [call_message o name (serialize_item (PTuple args))])
       (remote_state w)
       (if log_check self then EmptyString else log_file w)
       (stdout w)).
Proof.
  intros H. unfold function, bind.
  fold (call_message o name (serialize_item (PTuple args))).
  destruct (log_check self).
  - rewrite empty_log_empties.
    erewrite send_and_return_fails; [reflexivity | now left | exact H].
  - unfold ret at 1.
    erewrite send_and_return_fails; [|now left | exact H].
    destruct w; reflexivity.
Qed.

(** With the log check on, each call prints the log of that call and
    no more: the remote side is handed an empty log file, whatever an
    earlier call left in it, and what is printed after the reply is
    the file as the remote side left it. *)
Theorem function_prints_own_log (self : CubitConnect)
    (o1 o2 : CubitObject) (name1 name2 : string) (args1 args2 : list PyVal)
    (w : World) (r1 r2 : R) (log1 log2 : string) (reply1 reply2 : PyVal) :
  log_check self = true ->
  remote (remote_state w) EmptyString
    (call_message o1 name1 (serialize_item (PTuple args1)))
  = Some (r1, log1, reply1) ->
  remote r1 EmptyString (call_message o2 name2 (serialize_item (PTuple args2)))
  = Some (r2, log2, reply2) ->
  let w1 := snd (function self o1 name1 args1 w) in
  let w2 := snd (function self o2 name2 args2 w1) in
  stdout w1 = stdout w ++ log1
  /\ log_file w1 = log1
  /\ stdout w2 = stdout w1 ++ log2
  /\ log_file w2 = log2
  /\ sent w2
     = (sent w ++ [call_message o1 name1 (serialize_item (PTuple args1));
                   call_message o2 name2 (serialize_item (PTuple args2))])%list.
Proof.
  intros Hc H1 H2.
  pose proof (function_answered self o1 name1 args1 w r1 log1 reply1) as E1.
  rewrite Hc in E1. specialize (E1 H1). cbv zeta. rewrite E1. cbn [snd].
  pose proof (function_answered self o2 name2 args2
                (mkWorld (channels w)
                   (sent w ++ [call_message o1 name1 (serialize_item (PTuple args1))])
                   r1 log1 (stdout w ++ log1)) r2 log2 reply2) as E2.
  rewrite Hc in E2. specialize (E2 H2). rewrite E2. cbn.
  repeat split. now rewrite <- app_assoc.
Qed.

(** When the channel fails while the reply of a call is awaited, the
    call raises the transport error after the message has been sent:
    nothing is decoded and nothing is printed, and with the log check
    on the log file has been emptied. *)
Theorem function_channel_fails (self : CubitConnect) (o : CubitObject)
    (name : string) (args : list PyVal) (w : World) :
  remote (remote_state w) (if log_check self then EmptyString else log_file w)
    (call_message o name (serialize_item (PTuple args))) = None ->
  fst (function self o name args w) = Raise TransportError
  /\ sent (snd (function self o name args w))
     = (sent w ++ [call_message o name (serialize_item (PTuple args))])%list
  /\ stdout (snd (function self o name args w)) = stdout w
  /\ log_file (snd (function self o name args w))
     = if log_check self then EmptyString else log_file w.
Proof.
  intros H. rewrite (function_failed self o name args w H). repeat split.
Qed.

(** The decoding of a reply raises nothing but the type error with the
    value that is neither handle nor primitive, and the two value
    errors of [int] on the tail of a token: no integer literal, or
    more digits than it converts. *)
Theorem decode_raises_only (reply : PyVal) (e : PyExc) :
  decode reply = Raise e ->
  (exists x, e = decode_error x /\ entry_ok x = false)
  \/ (exists tail, e = Py.invalid_literal tail)
  \/ (exists digits, e = Py.exceeds_limit digits).
Proof.
  intros E.
  destruct (decode_cases reply)
    as [[_ E'] | [[Hb E'] | (Hr & Hb & [(l & -> & _ & E')
                                       | [(b & x & a & -> & Hbf & Hx & E')
                                         | [Hnl E']]])]];
    rewrite E' in E; try discriminate E.
  - destruct (bad_token_raises reply Hb) as (e0 & Et & He). rewrite Et in E.
    cbn in E. inversion E; subst e0. now right.
  - destruct (cubit_item_to_id x) as [v|e0] eqn:Ec.
    + inversion E. left. eauto.
    + assert (Hbx : bad_token x = true) by (unfold bad_token; now rewrite Ec).
      destruct (bad_token_raises x Hbx) as (e1 & Et & He). rewrite Et in Ec.
      inversion Ec; subst e1. inversion E; subst e0. now right.
  - destruct (is_base_type reply) eqn:Hbase; [discriminate E|]. inversion E.
    left. exists reply. split; [reflexivity|].
    unfold entry_ok. now rewrite Hr, Hbase.
Qed.

End Further.

Section FurtherQueries.

Context {rt : Runtime}.

Lemma send_and_return_world message w :
  let w' := snd (send_and_return message false w) in
  channels w' = channels w /\ stdout w' = stdout w
  /\ sent w' = (sent w ++ [message])%list.
Proof.
  unfold send_and_return, channel_send_receive. cbn [andb].
  destruct (remote (remote_state w) (log_file w) message) as [[[r l] v]|];
    repeat split.
Qed.

Lemma first_match_asks o cs : forall w,
  exists n,
    (n <= List.length cs)%nat
    /\ (cs <> [] -> (1 <= n)%nat)
    /\ channels (snd (first_match o cs w)) = channels w
    /\ stdout (snd (first_match o cs w)) = stdout w
    /\ sent (snd (first_match o cs w))
       = (sent w ++ map (isinstance_message o) (firstn n (map fst cs)))%list
    /\ (forall k, fst (first_match o cs w) = Ok k ->
        exists c, nth_error cs (n - 1) = Some (c, k))
    /\ (fst (first_match o cs w) = Raise not_a_geometry -> n = List.length cs).
Proof.
  induction cs as [|[c0 k0] rest IH]; intros w.
  - exists O. cbn. rewrite app_nil_r.
    split; [lia|]. split; [intros H; now elim H|].
    split; [reflexivity|]. split; [reflexivity|]. split; [reflexivity|].
    split; [discriminate | reflexivity].
  - cbn [first_match]. unfold bind, CubitObject_isinstance.
    fold (isinstance_message o c0).
    destruct (send_and_return_world (isinstance_message o c0) w) as (Hc & Ho & Hs).
    destruct (send_and_return (isinstance_message o c0) false w)
      as [[b|e] w1] eqn:Eq; cbn [snd] in Hc, Ho, Hs.
    + destruct (Py.truthy b).
      * exists 1%nat. cbn. repeat split; try lia; try assumption.
        -- intros k H. inversion H. eauto.
        -- discriminate.
      * destruct (IH w1) as (n & Hn & Hpos & Hc' & Ho' & Hs' & Hk & Hnone).
        exists (S n). cbn [List.length map firstn fst].
        split; [lia|]. split; [lia|]. split; [congruence|]. split; [congruence|].
        split; [rewrite Hs', Hs, <- app_assoc; reflexivity|]. split.
        -- intros k H. destruct (Hk k H) as [c Hc0]. exists c.
           destruct rest as [|p rest'].
           ++ destruct n; cbn in Hc0; discriminate.
           ++ assert (1 <= n)%nat by (apply Hpos; discriminate).
              destruct n as [|n']; [lia|]. cbn in Hc0 |- *.
              now rewrite Nat.sub_0_r in Hc0.
        -- intros H. now rewrite (Hnone H).
    + exists 1%nat. cbn. repeat split; try lia; try assumption.
      * discriminate.
      * intros H. apply send_and_return_raises in Eq. subst e. discriminate H.
Qed.

(** Whatever the remote side answers, and also when the channel fails,
    the search for the geometry type sends between one and four
    isinstance queries, for vertex, curve, surface and volume in this
    order, and nothing else; it prints nothing.  When it returns a
    type, the last query was the one for that type, under the name
    made of [cubitpy_] and its cubit string; when it raises the type
    error, all four were sent. *)
Theorem get_geometry_type_asks_in_order (o : CubitObject) (w : World) :
  exists n,
    (1 <= n <= 4)%nat
    /\ sent (snd (get_geometry_type o w))
       = (sent w
          ++ map (isinstance_message o)
               (firstn n ["cubitpy_vertex"; "cubitpy_curve"; "cubitpy_surface";
                          "cubitpy_volume"]))%list
    /\ channels (snd (get_geometry_type o w)) = channels w
    /\ stdout (snd (get_geometry_type o w)) = stdout w
    /\ (forall k, fst (get_geometry_type o w) = Ok k ->
        nth_error ["cubitpy_vertex"; "cubitpy_curve"; "cubitpy_surface";
                   "cubitpy_volume"] (n - 1)
        = Some ("cubitpy_" ++ get_cubit_string k))
    /\ (forall e, fst (get_geometry_type o w) = Raise e ->
        is_TypeError e = true -> n = 4%nat).
Proof.
  rewrite get_geometry_type_first_match.
  destruct (first_match_asks o categories w)
    as (n & Hn & Hpos & Hc & Ho & Hs & Hk & Hnone).
  exists n. cbn [List.length categories] in Hn.
  split; [split; [apply Hpos; discriminate | exact Hn]|].
  split; [exact Hs|]. split; [exact Hc|]. split; [exact Ho|]. split.
  - intros k H. destruct (Hk k H) as [c Hc0].
    assert (1 <= n)%nat by (apply Hpos; discriminate).
    destruct n as [|[|[|[|[|n]]]]]; try lia; cbn in Hc0 |- *;
      inversion Hc0; reflexivity.
  - intros e H He. apply Hnone.
    destruct (first_match o categories w) as [[k|e'] w'] eqn:E; cbn in H;
      [discriminate H|].
    inversion H; subst e'.
    now rewrite (first_match_TypeError o categories w e w' E He).
Qed.

(** ** The members of an object *)

Lemma comprehension_partition keep entries :
  match comprehension keep entries,
        comprehension (fun c => negb (keep c)) entries,
        comprehension (fun _ => true) entries with
  | Ok kept, Ok dropped, Ok all =>
      Permutation (kept ++ dropped) all
      /\ List.length all = List.length entries
  | Raise e1, Raise e2, Raise e3 => e1 = e2 /\ e2 = e3
  | _, _, _ => False
  end.
Proof.
  induction entries as [|entry rest IH]; cbn [comprehension].
  - split; [constructor | reflexivity].
  - destruct (unpack_member entry) as [[method callable]|e]; cbn [obind];
      [|split; reflexivity].
    destruct (comprehension keep rest) as [kept|e1],
             (comprehension (fun c => negb (keep c)) rest) as [dropped|e2],
             (comprehension (fun _ => true) rest) as [all|e3];
      cbn [obind fst snd]; try exact IH; try contradiction.
    destruct IH as [Hp Hl]. split; [|cbn; now rewrite Hl].
    destruct (keep callable); cbn [negb app].
    + now constructor.
    + apply Permutation_sym, Permutation_cons_app. now apply Permutation_sym.
Qed.

(** When the remote side answers the member enumeration, [get_methods]
    and [get_attributes] each send that one message, print nothing and
    return names as they were received.  Given the same answer they
    fail together, with the same error, or split the names of the
    answer between them: every name is returned by exactly one of the
    two, as often as it was received. *)
Theorem methods_and_attributes_partition (o : CubitObject) (w : World)
    (r : R) (log : string) (self_dir : PyVal) :
  remote (remote_state w) (log_file w) (get_self_dir_message o)
  = Some (r, log, self_dir) ->
  CubitObject_get_methods o w
  = (members Py.truthy self_dir, answered w [get_self_dir_message o] r log)
  /\ CubitObject_get_attributes o w
     = (members (fun callable => negb (Py.truthy callable)) self_dir,
        answered w [get_self_dir_message o] r log)
  /\ match members Py.truthy self_dir,
           members (fun callable => negb (Py.truthy callable)) self_dir with
     | Ok methods, Ok attributes =>
         exists names,
           members (fun _ => true) self_dir = Ok names
           /\ Permutation (methods ++ attributes) names
     | Raise e1, Raise e2 => e1 = e2
     | _, _ => False
     end.
Proof.
  intros H. split; [|split].
  - unfold CubitObject_get_methods, CubitObject_get_self_dir, bind.
    fold (get_self_dir_message o).
    now rewrite (send_and_return_answered _ false w r log self_dir
                   (or_introl eq_refl) H).
  - unfold CubitObject_get_attributes, CubitObject_get_self_dir, bind.
    fold (get_self_dir_message o).
    now rewrite (send_and_return_answered _ false w r log self_dir
                   (or_introl eq_refl) H).
  - unfold members. destruct (py_iterate self_dir) as [entries|]; [|reflexivity].
    pose proof (comprehension_partition Py.truthy entries) as P.
    destruct (comprehension Py.truthy entries) as [methods|e1],
             (comprehension (fun c => negb (Py.truthy c)) entries)
               as [attributes|e2],
             (comprehension (fun _ => true) entries) as [all|e3];
      try contradiction.
    + exists all. split; [reflexivity | exact (proj1 P)].
    + exact (proj1 P).
Qed.

(** ** The constructor of the connection, again *)

(** When the reply to the init message is not a handle, the
    constructor raises the type error with that reply.  Both messages
    have been sent by then: the python2 side has started cubit, and no
    connection object exists to reach it. *)
Theorem CubitConnect_init_without_handle (cubit_arguments : list string)
    (path : string) (w : World) (r1 r2 : R) (log1 log2 : string)
    (ack reply : PyVal) :
  let capture := negb (log_given cubit_arguments) in
  remote (remote_state w) (log_file w) (parameters_message path capture)
  = Some (r1, log1, ack) ->
  remote r1 log1 (init_message (launch_arguments cubit_arguments capture))
  = Some (r2, log2, reply) ->
  cubit_item_to_id reply = Ok None ->
  CubitConnect_init cubit_arguments (Some path) w
  = (Raise (TypeError "Wrong type {}" [reply]),
     answered w
       [parameters_message path capture;
        init_message (launch_arguments cubit_arguments capture)]
       r2 log2).
Proof.
  intros capture H1 H2 Hn. subst capture.
  rewrite CubitConnect_init_unfold. cbv zeta. unfold bind.
  rewrite (send_and_return_answered _ false w r1 log1 ack (or_introl eq_refl) H1).
  rewrite (send_and_return_answered _ false (answered w _ r1 log1) r2 log2
             reply (or_introl eq_refl) H2).
  unfold lift, CubitObjectMain_init.
  rewrite (CubitObject_init_not_handle reply Hn). cbn.
  unfold answered. cbn. now rewrite <- app_assoc.
Qed.

Lemma log_given_app args more :
  log_given (args ++ more) = log_given args || log_given more.
Proof.
  induction args as [|a r IH]; [reflexivity|].
  cbn [app log_given]. destruct (Py.startswith a "-log="); [reflexivity | exact IH].
Qed.

(** The scan of the constructor does not take the option the
    constructor appends for a given log file.  So the list of arguments
    it has extended, given to the constructor again, is extended
    again. *)
Theorem appended_log_option_is_not_seen (cubit_arguments : list string) :
  log_given cubit_arguments = false ->
  Py.startswith temp_log "-log=" = false ->
  log_given (launch_arguments cubit_arguments true) = false
  /\ launch_arguments (launch_arguments cubit_arguments true)
       (negb (log_given (launch_arguments cubit_arguments true)))
     = (cubit_arguments ++ ["-log"; temp_log; "-log"; temp_log])%list.
Proof.
  intros Hg Ht.
  assert (E : log_given (launch_arguments cubit_arguments true) = false).
  { unfold launch_arguments. rewrite log_given_app, Hg. cbn. now rewrite Ht. }
  split; [exact E|]. rewrite E. unfold launch_arguments. cbn [negb].
  now rewrite <- app_assoc.
Qed.

End FurtherQueries.

(** * The further facts at work on the two remote sides *)

(** Two calls with the log check on, into a log file that held text
    before: each prints its own line, and the old text is never
    printed. *)
Lemma function_prints_own_log_witness :
  stdout (snd (function Demo.connection Demo.vertex_42 "mesh" [PInt 2]
                 (snd (function Demo.connection Demo.vertex_42 "id" []
                         (Demo.state 1 [] O "old;" EmptyString)))))
  = "id;call;".
Proof.
  destruct (function_prints_own_log (rt := Demo.runtime) Demo.connection
              Demo.vertex_42 Demo.vertex_42 "id" "mesh" [] [PInt 2]
              (Demo.state 1 [] O "old;" EmptyString) 1%nat 2%nat "id;" "call;"
              (PInt 5) (Demo.handle "7" "<Body>") eq_refl eq_refl eq_refl)
    as (H1 & _ & H2 & _).
  rewrite H2, H1. reflexivity.
Defined.

Lemma function_channel_fails_witness :
  fst (function (rt := Bench.runtime) Demo.connection Demo.vertex_42 "mesh" []
         (Bench.world 1))
  = Raise TransportError
  /\ log_file (snd (function (rt := Bench.runtime) Demo.connection
                      Demo.vertex_42 "mesh" [] (Bench.world 1)))
     = EmptyString.
Proof.
  destruct (function_channel_fails (rt := Bench.runtime) Demo.connection
              Demo.vertex_42 "mesh" [] (Bench.world 1) eq_refl)
    as (H1 & _ & _ & H2).
  split; [exact H1 | exact H2].
Defined.

Lemma finalizers_send_deletes_witness :
  del_all (rt := Demo.runtime)
    [Demo.vertex_42; cubit Demo.connection; Demo.curve_9] (Demo.world 1)
  = (Ok tt,
     Demo.state 1 [delete_message Demo.vertex_42; delete_message Demo.curve_9]
       2 EmptyString EmptyString)
  /\ sent (Demo.state 1
             [delete_message Demo.vertex_42; delete_message Demo.curve_9]
             2 EmptyString EmptyString)
     = [delete_message Demo.vertex_42; delete_message Demo.curve_9].
Proof.
  split; [reflexivity|].
  exact (proj1 (finalizers_send_deletes (rt := Demo.runtime)
                  [Demo.vertex_42; cubit Demo.connection; Demo.curve_9]
                  [Demo.curve_9; Demo.vertex_42; cubit Demo.connection]
                  (Demo.world 1)
                  (Demo.state 1
                     [delete_message Demo.vertex_42; delete_message Demo.curve_9]
                     2 EmptyString EmptyString)
                  (Demo.world 1) eq_refl)).
Defined.

Lemma decode_raises_only_witness :
  decode (PList [PInt 1; PList [PStr "cp2t3id_x"]]) = Raise (Py.invalid_literal "x")
  /\ ((exists x, Py.invalid_literal "x" = decode_error x /\ entry_ok x = false)
      \/ (exists tail, Py.invalid_literal "x" = Py.invalid_literal tail)
      \/ (exists digits, Py.invalid_literal "x" = Py.exceeds_limit digits)).
Proof.
  split; [reflexivity|].
  exact (decode_raises_only (PList [PInt 1; PList [PStr "cp2t3id_x"]])
           (Py.invalid_literal "x") eq_refl).
Defined.

Lemma methods_and_attributes_partition_witness :
  fst (CubitObject_get_methods (rt := Bench.runtime) Demo.vertex_42 (Bench.world 1))
  = Ok [PStr "mesh"; PStr "volumes"]
  /\ fst (CubitObject_get_attributes (rt := Bench.runtime) Demo.vertex_42
            (Bench.world 1))
     = Ok [PStr "id"].
Proof.
  destruct (methods_and_attributes_partition (rt := Bench.runtime) Demo.vertex_42
              (Bench.world 1) 1%nat "old;" Bench.self_dir eq_refl)
    as (H1 & H2 & _).
  rewrite H1, H2. split; reflexivity.
Defined.

Lemma CubitConnect_init_without_handle_witness :
  fst (CubitConnect_init (rt := Bench.runtime) ["-nographics"] (Some "/opt/cubit")
         (Bench.world 1))
  = Raise (TypeError "Wrong type {}" [PStr "no cubit"]).
Proof.
  rewrite (CubitConnect_init_without_handle (rt := Bench.runtime) ["-nographics"]
             "/opt/cubit" (Bench.world 1) 1%nat 2%nat "old;" "old;" PNone
             (PStr "no cubit") eq_refl eq_refl eq_refl).
  reflexivity.
Defined.

Lemma appended_log_option_is_not_seen_witness :
  launch_arguments (rt := Demo.runtime)
    (launch_arguments (rt := Demo.runtime) ["-nographics"] true) true
  = ["-nographics"; "-log"; "/tmp/cubitpy.log"; "-log"; "/tmp/cubitpy.log"].
Proof.
  exact (proj2 (appended_log_option_is_not_seen (rt := Demo.runtime)
                  ["-nographics"] eq_refl eq_refl)).
Defined.

Section ReturnedRoot.

Context {rt : Runtime}.

(** The root proxy that is sent and returned comes back as a plain
    proxy for the handle of the root.  Releasing the root proxy sends
    nothing; releasing what came back sends, while a channel is left,
    the delete message for the root object. *)
Theorem returned_root_proxy_deletes_root (root : CubitObject) (w : World) :
  is_main root = true ->
  recognized (cubit_id root) = true ->
  channels w <> O ->
  decode (serialize_item (PObj root))
  = Ok (PObj (mkCubitObject false (cubit_id root)))
  /\ snd (release (mkProxy root Live) w) = w
  /\ sent (snd (release (mkProxy (mkCubitObject false (cubit_id root)) Live) w))
     = (sent w ++ [delete_message root])%list.
Proof.
  intros Hm Hr Hc. split; [|split].
  - cbn. now apply decode_handle.
  - unfold release, del. cbn. now rewrite Hm.
  - unfold release, del. cbn [proxy_state proxy_object is_main snd].
    destruct (CubitObject_del_sent (mkCubitObject false (cubit_id root)) w)
      as [_ Hs].
    rewrite Hs. apply Nat.eqb_neq in Hc. now rewrite Hc.
Qed.

End ReturnedRoot.

Lemma returned_root_proxy_deletes_root_witness :
  sent (snd (release (rt := Demo.runtime)
               (mkProxy (mkCubitObject false (Demo.handle "1" "<cubit>")) Live)
               (Demo.world 1)))
  = [delete_message (cubit Demo.connection)].
Proof.
  exact (proj2 (proj2 (returned_root_proxy_deletes_root (rt := Demo.runtime)
                         (cubit Demo.connection) (Demo.world 1) eq_refl eq_refl
                         ltac:(discriminate)))).
Defined.
